(** * ReActChatEngine (llama_index/chat_engine/react.py)

    A shallow embedding of the ReAct chat engine: a thin proxy that builds a
    LangChain agent over query-engine tools and a conversation memory, and
    forwards chat calls to it.

    Python objects that are shared and mutated (the memory object, the agent
    executor) live in an explicit store indexed by addresses; an address is
    the identity of the object.  Methods are computations in a state and
    exception monad over that store: a raised exception keeps the store as it
    was at the point of the raise, as in Python. *)

From stdpp Require Import gmap strings list fin_maps.

Open Scope string_scope.

(** ** Exceptions and results *)

(** The exceptions the engine can raise.  [ExternalError] stands for
    whatever the agent framework raises from inside a run.  [StaleReference]
    belongs to the model only: Python references never dangle, so it is
    raised exactly when an address is looked up in a store that does not
    hold it. *)
Inductive exn : Type :=
| ValueError (msg : string)
| NotImplementedError (msg : string)
| AssertionError
| ExternalError (msg : string)
| StaleReference.

Inductive Result (A : Type) : Type :=
| Ok (a : A)
| Raise (e : exn).
Arguments Ok {A} a.
Arguments Raise {A} e.

(** ** Messages (llama_index.llms.base, llama_index.llms.langchain_utils) *)

Module LangchainUtils.

(** Modelled from the spec: the roles of a message of this library
    (llama_index.llms.base.MessageRole), which is not part of the source at
    hand. *)
Inductive MessageRole : Type := SYSTEM | USER | ASSISTANT | FUNCTION.

(** Modelled from the spec: the message type of this library
    (llama_index.llms.base.ChatMessage), which is not part of the source at
    hand.  The spec speaks of a message's role and content; both are kept. *)
Record ChatMessage : Type := mkChatMessage {
  role : MessageRole;
  content : string
}.

(** Modelled from the spec: the external framework's message type, one
    variant per kind of speaker, each carrying the text. *)
Inductive BaseMessage : Type :=
| HumanMessage (text : string)
| AIMessage (text : string)
| SystemMessage (text : string)
| FunctionMessage (text : string).

(** Modelled from the spec: to_lc_messages
    (llama_index/llms/langchain_utils.py) is missing from the source at
    hand.  The spec calls it part of a translation layer between this
    library's message type and the external framework's, without loss of
    role or content; this is the translation of one message. *)
Definition to_lc_message (m : ChatMessage) : BaseMessage :=
  match role m with
  | USER => HumanMessage (content m)
  | ASSISTANT => AIMessage (content m)
  | SYSTEM => SystemMessage (content m)
  | FUNCTION => FunctionMessage (content m)
  end.

(** Modelled from the spec: from_lc_messages
    (llama_index/llms/langchain_utils.py) is missing from the source at
    hand; this is the translation of one message back. *)
Definition from_lc_message (m : BaseMessage) : ChatMessage :=
  match m with
  | HumanMessage c => mkChatMessage USER c
  | AIMessage c => mkChatMessage ASSISTANT c
  | SystemMessage c => mkChatMessage SYSTEM c
  | FunctionMessage c => mkChatMessage FUNCTION c
  end.

(** Modelled from the spec: to_lc_messages translates each message on its
    own, in order. *)
Definition to_lc_messages (messages : list ChatMessage) : list BaseMessage :=
  map to_lc_message messages.

(** Modelled from the spec: from_lc_messages translates each message on
    its own, in order. *)
Definition from_lc_messages (lc_messages : list BaseMessage) : list ChatMessage :=
  map from_lc_message lc_messages.

End LangchainUtils.
Export LangchainUtils.

(** ** The conversation memory (llama_index.bridge.langchain) *)

(** Addresses: the identity of a stored object. *)
Abbreviation addr := nat (only parsing).

(** The classes of chat memory the external framework offers.  Only the
    first one passes [isinstance(_, ConversationBufferMemory)]. *)
Inductive MemoryClass : Type :=
| ConversationBufferMemory
| ConversationBufferWindowMemory
| ConversationSummaryMemory
| ConversationTokenBufferMemory
| CustomChatMemory (name : string).

Record ChatMessageHistory : Type := mkChatMessageHistory {
  messages : list BaseMessage
}.

Record BaseChatMemory : Type := mkMemory {
  memory_class : MemoryClass;
  memory_key : string;
  chat_memory : ChatMessageHistory;
  return_messages : bool
}.

Definition isinstance_ConversationBufferMemory (m : BaseChatMemory) : bool :=
  match memory_class m with
  | ConversationBufferMemory => true
  | _ => false
  end.

(** [ConversationBufferMemory(memory_key=.., chat_memory=.., return_messages=..)] *)
Definition new_ConversationBufferMemory
    (key : string) (history : ChatMessageHistory) (ret : bool) : BaseChatMemory :=
  {| memory_class := ConversationBufferMemory;
     memory_key := key;
     chat_memory := history;
     return_messages := ret |}.

(** Modelled from the spec: [clear] is a method of the external
    framework's memory class and is not part of the source at hand.  The
    spec has it clear the memory object's contents, after which the
    memory's message list is empty; the object is otherwise as it was. *)
Definition cleared (m : BaseChatMemory) : BaseChatMemory :=
  {| memory_class := memory_class m;
     memory_key := memory_key m;
     chat_memory := mkChatMessageHistory [];
     return_messages := return_messages m |}.

(** [AgentType] of the external framework; the engine uses two of them. *)
Inductive AgentType : Type :=
| ZERO_SHOT_REACT_DESCRIPTION
| REACT_DOCSTORE
| SELF_ASK_WITH_SEARCH
| CONVERSATIONAL_REACT_DESCRIPTION
| CHAT_ZERO_SHOT_REACT_DESCRIPTION
| CHAT_CONVERSATIONAL_REACT_DESCRIPTION.

(** ** What the engine is linked against

    Types and pure helpers that live outside react.py: the query-engine
    tool wrapper and its translation to a LangChain tool, the LangChain
    language-model handle with the [is_chat_model] test, and the state an
    agent executor keeps between runs. *)
Class Bridge : Type := {
  QueryEngineTool : Type;
  BaseQueryEngine : Type;
  Tool : Type;
  BaseLanguageModel : Type;
  AgentState : Type;
  as_langchain_tool : QueryEngineTool -> Tool;
  QueryEngineTool_from_defaults :
    BaseQueryEngine -> option string -> option string -> QueryEngineTool;
  is_chat_model : BaseLanguageModel -> bool;
  initial_agent_state : AgentState
}.

Section Objects.
Context `{B : Bridge}.

(** [llama_index.llms.langchain.LangChainLLM]: wraps a LangChain model. *)
Record LangChainLLM : Type := mkLangChainLLM {
  llm : BaseLanguageModel
}.

(** A language model of this library: the LangChain wrapper or another. *)
Inductive LLM : Type :=
| IsLangChainLLM (l : LangChainLLM)
| OtherLLM (class_name : string).

(** A predictor: [LLMPredictor] (with its [llm] attribute) or another
    implementation of the predictor interface. *)
Inductive BaseLLMPredictor : Type :=
| LLMPredictor (predictor_llm : LLM)
| OtherPredictor (class_name : string).

(** Only the attribute of the service context that the engine reads. *)
Record ServiceContext : Type := mkServiceContext {
  llm_predictor : BaseLLMPredictor
}.

(** The object [initialize_agent] returns: the arguments it was built
    from, and the state the framework accumulates over runs. *)
Record AgentExecutor : Type := mkAgentExecutor {
  ae_tools : list Tool;
  ae_llm : BaseLanguageModel;
  ae_agent : AgentType;
  ae_memory : addr;
  ae_verbose : bool;
  ae_agent_kwargs : gmap string string;
  ae_state : AgentState
}.

(** What one run of the agent leaves behind: the answer or the exception,
    the executor's next state, and the memory's next message list. *)
Record RunOutcome : Type := mkRunOutcome {
  run_result : Result string;
  run_state : AgentState;
  run_messages : list BaseMessage
}.

(** Calls that reach the agent's entry points, oldest first. *)
Inductive Event : Type :=
| EvRun (agent : addr) (input : string)
| EvARun (agent : addr) (input : string).

(** The store. *)
Record World : Type := mkWorld {
  memories : gmap addr BaseChatMemory;
  agents : gmap addr AgentExecutor;
  trace : list Event
}.

(** The engine object.  [_memory] and [_agent] are references. *)
Record ReActChatEngine : Type := mkEngine {
  _query_engine_tools : list QueryEngineTool;
  _llm : LangChainLLM;
  _memory : addr;
  _system_prompt : option string;
  _verbose : bool;
  _agent : addr
}.

Record AgentChatResponse : Type := mkAgentChatResponse {
  response : string
}.

End Objects.

(** The impure part of what the engine is linked against: the default
    service context, and the agent's two run entry points.  A run sees the
    executor, the memory's message list and the input. *)
Class AgentRuntime `{B : Bridge} : Type := {
  ServiceContext_from_defaults : ServiceContext;
  agent_run : AgentExecutor -> list BaseMessage -> string -> RunOutcome;
  agent_arun : AgentExecutor -> list BaseMessage -> string -> RunOutcome
}.

(** [StreamingAgentChatResponse]: only its chunks are modelled. *)
Record StreamingAgentChatResponse : Type := mkStreaming {
  response_gen : list string
}.

(** Keyword arguments that [from_query_engine] hands on to [from_defaults];
    [from_defaults] drops every other key. *)
Record Kwargs : Type := mkKwargs {
  kw_system_prompt : option string;
  kw_prefix_messages : option (list ChatMessage)
}.

Section Engine.
Context `{R : AgentRuntime}.

(** ** The state and exception monad *)

Definition M (A : Type) : Type := World -> Result A * World.

Definition ret {A : Type} (a : A) : M A := fun w => (Ok a, w).

Definition raise {A : Type} (e : exn) : M A := fun w => (Raise e, w).

Definition bind {A C : Type} (c : M A) (k : A -> M C) : M C :=
  fun w =>
    match c w with
    | (Ok a, w') => k a w'
    | (Raise e, w') => (Raise e, w')
    end.

Notation "x <- c ;; k" := (bind c (fun x => k))
  (at level 100, c at next level, right associativity).
Notation "c ;;; k" := (bind c (fun _ => k))
  (at level 100, right associativity).

(** ** Store operations *)

Definition read_memory (a : addr) : M BaseChatMemory :=
  fun w =>
    match memories w !! a with
    | Some m => (Ok m, w)
    | None => (Raise StaleReference, w)
    end.

Definition write_memory (a : addr) (m : BaseChatMemory) : M unit :=
  fun w => (Ok tt, mkWorld (<[a := m]> (memories w)) (agents w) (trace w)).

Definition alloc_memory (m : BaseChatMemory) : M addr :=
  fun w =>
    let a := fresh (dom (memories w)) in
    (Ok a, mkWorld (<[a := m]> (memories w)) (agents w) (trace w)).

Definition read_agent (a : addr) : M AgentExecutor :=
  fun w =>
    match agents w !! a with
    | Some ag => (Ok ag, w)
    | None => (Raise StaleReference, w)
    end.

Definition write_agent (a : addr) (ag : AgentExecutor) : M unit :=
  fun w => (Ok tt, mkWorld (memories w) (<[a := ag]> (agents w)) (trace w)).

Definition alloc_agent (ag : AgentExecutor) : M addr :=
  fun w =>
    let a := fresh (dom (agents w)) in
    (Ok a, mkWorld (memories w) (<[a := ag]> (agents w)) (trace w)).

Definition log (ev : Event) : M unit :=
  fun w => (Ok tt, mkWorld (memories w) (agents w) (trace w ++ [ev])).

(** ** The external framework's operations *)

(** [memory.clear()] *)
Definition memory_clear (a : addr) : M unit :=
  m <- read_memory a ;;
  write_memory a (cleared m).

(** Modelled from the spec: [initialize_agent(tools=.., llm=.., agent=..,
    memory=.., verbose=.., agent_kwargs=..)] is the external framework's
    agent constructor and is not part of the source at hand.  The spec has
    it construct an agent instance from tools, a language model, memory
    and prompt configuration: a new executor object, holding its
    arguments, in the state of an agent that has not run yet. *)
Definition initialize_agent
    (tools : list Tool) (lc_llm : BaseLanguageModel) (agent : AgentType)
    (memory : addr) (verbose : bool) (agent_kwargs : gmap string string) : M addr :=
  alloc_agent
    {| ae_tools := tools;
       ae_llm := lc_llm;
       ae_agent := agent;
       ae_memory := memory;
       ae_verbose := verbose;
       ae_agent_kwargs := agent_kwargs;
       ae_state := initial_agent_state |}.

Definition with_outcome_state (ag : AgentExecutor) (o : RunOutcome) : AgentExecutor :=
  {| ae_tools := ae_tools ag;
     ae_llm := ae_llm ag;
     ae_agent := ae_agent ag;
     ae_memory := ae_memory ag;
     ae_verbose := ae_verbose ag;
     ae_agent_kwargs := ae_agent_kwargs ag;
     ae_state := run_state o |}.

Definition with_outcome_messages (m : BaseChatMemory) (o : RunOutcome) : BaseChatMemory :=
  {| memory_class := memory_class m;
     memory_key := memory_key m;
     chat_memory := mkChatMessageHistory (run_messages o);
     return_messages := return_messages m |}.

(** One call of an entry point of the executor at [a]: the call is
    recorded, the framework runs over the executor and its memory, and
    both are updated before the answer is returned or the exception is
    raised. *)
Definition invoke
    (entry : AgentExecutor -> list BaseMessage -> string -> RunOutcome)
    (ev : Event) (a : addr) (input : string) : M string :=
  log ev ;;;
  ag <- read_agent a ;;
  m <- read_memory (ae_memory ag) ;;
  let o := entry ag (messages (chat_memory m)) input in
  write_agent a (with_outcome_state ag o) ;;;
  write_memory (ae_memory ag) (with_outcome_messages m o) ;;;
  match run_result o with
  | Ok s => ret s
  | Raise e => raise e
  end.

(** [agent.run(input=..)] and the awaited [agent.arun(input=..)] *)
Definition AgentExecutor_run (a : addr) (input : string) : M string :=
  invoke agent_run (EvRun a input) a input.

Definition AgentExecutor_arun (a : addr) (input : string) : M string :=
  invoke agent_arun (EvARun a input) a input.

(** ** ReActChatEngine *)

(** The body of [_create_agent], over the attributes it reads. *)
Definition create_agent_over
    (query_engine_tools : list QueryEngineTool) (llm_ : LangChainLLM)
    (memory : addr) (system_prompt : option string) (verbose : bool) : M addr :=
  let tools := map as_langchain_tool query_engine_tools in
  let agent_kwargs : gmap string string := ∅ in
  let '(agent_type, agent_kwargs) :=
    if is_chat_model (llm llm_) then
      (CHAT_CONVERSATIONAL_REACT_DESCRIPTION,
       match system_prompt with
       | Some p => <["system_message" := p]> agent_kwargs
       | None => agent_kwargs
       end)
    else
      (CONVERSATIONAL_REACT_DESCRIPTION,
       match system_prompt with
       | Some p => <["prefix" := p]> agent_kwargs
       | None => agent_kwargs
       end) in
  initialize_agent tools (llm llm_) agent_type memory verbose agent_kwargs.

Definition _create_agent (self : ReActChatEngine) : M addr :=
  create_agent_over (_query_engine_tools self) (_llm self) (_memory self)
    (_system_prompt self) (_verbose self).

(** The constructor: the five attributes are set, then the agent is built
    from them. *)
Definition __init__
    (query_engine_tools : list QueryEngineTool) (llm_ : LangChainLLM)
    (memory : addr) (system_prompt : option string) (verbose : bool)
    : M ReActChatEngine :=
  a <- create_agent_over query_engine_tools llm_ memory system_prompt verbose ;;
  ret {| _query_engine_tools := query_engine_tools;
         _llm := llm_;
         _memory := memory;
         _system_prompt := system_prompt;
         _verbose := verbose;
         _agent := a |}.

(** [chat_history or []] *)
Definition or_empty (chat_history : option (list ChatMessage)) : list ChatMessage :=
  match chat_history with
  | Some (x :: l) => x :: l
  | Some [] => []
  | None => []
  end.

Definition from_defaults
    (query_engine_tools : list QueryEngineTool)
    (service_context : option ServiceContext)
    (memory : option addr)
    (chat_history : option (list ChatMessage))
    (verbose : bool)
    (system_prompt : option string)
    (prefix_messages : option (list ChatMessage)) : M ReActChatEngine :=
  let service_context :=
    match service_context with
    | Some sc => sc
    | None => ServiceContext_from_defaults
    end in
  match llm_predictor service_context with
  | OtherPredictor _ => raise (ValueError "Currently only supports LLMPredictor.")
  | LLMPredictor l =>
    match l with
    | OtherLLM _ => raise (ValueError "Currently only supports LangChain based LLM.")
    | IsLangChainLLM llm_ =>
      let lc_llm := llm llm_ in
      match chat_history, memory with
      | Some _, Some _ => raise (ValueError "Cannot specify both memory and chat_history.")
      | _, _ =>
        memory <-
          match memory with
          | Some m => ret m
          | None =>
            let lc_messages := to_lc_messages (or_empty chat_history) in
            let lc_history := mkChatMessageHistory lc_messages in
            alloc_memory
              (new_ConversationBufferMemory "chat_history" lc_history
                 (is_chat_model lc_llm))
          end ;;
        match prefix_messages with
        | Some _ =>
          raise (NotImplementedError
                   "prefix_messages is not supported for ReActChatEngine.")
        | None => __init__ query_engine_tools llm_ memory system_prompt verbose
        end
      end
    end
  end.

Definition from_query_engine
    (query_engine : BaseQueryEngine)
    (name description : option string)
    (service_context : option ServiceContext)
    (memory : option addr)
    (chat_history : option (list ChatMessage))
    (verbose : bool)
    (kwargs : Kwargs) : M ReActChatEngine :=
  let query_engine_tool := QueryEngineTool_from_defaults query_engine name description in
  from_defaults [query_engine_tool] service_context memory chat_history verbose
    (kw_system_prompt kwargs) (kw_prefix_messages kwargs).

(** The [chat_history] property. *)
Definition chat_history (self : ReActChatEngine) : M (list ChatMessage) :=
  m <- read_memory (_memory self) ;;
  if isinstance_ConversationBufferMemory m
  then ret (from_lc_messages (messages (chat_memory m)))
  else raise AssertionError.

Definition chat (self : ReActChatEngine) (message : string)
    (history : option (list ChatMessage)) : M AgentChatResponse :=
  match history with
  | Some _ =>
    raise (NotImplementedError
             "chat_history argument is not supported for ReActChatEngine.")
  | None =>
    response <- AgentExecutor_run (_agent self) message ;;
    ret (mkAgentChatResponse response)
  end.

(** [achat], run to the end of its one await. *)
Definition achat (self : ReActChatEngine) (message : string)
    (history : option (list ChatMessage)) : M AgentChatResponse :=
  match history with
  | Some _ =>
    raise (NotImplementedError
             "chat_history argument is not supported for ReActChatEngine.")
  | None =>
    response <- AgentExecutor_arun (_agent self) message ;;
    ret (mkAgentChatResponse response)
  end.

Definition stream_chat (self : ReActChatEngine) (message : string)
    (history : option (list ChatMessage)) : M StreamingAgentChatResponse :=
  raise (NotImplementedError "stream_chat() is not supported for ReActChatEngine.").

Definition astream_chat (self : ReActChatEngine) (message : string)
    (history : option (list ChatMessage)) : M StreamingAgentChatResponse :=
  raise (NotImplementedError "astream_chat() is not supported for ReActChatEngine.").

(** [reset] mutates [self]; the engine after the call is returned. *)
Definition reset (self : ReActChatEngine) : M ReActChatEngine :=
  memory_clear (_memory self) ;;;
  a <- _create_agent self ;;
  ret {| _query_engine_tools := _query_engine_tools self;
         _llm := _llm self;
         _memory := _memory self;
         _system_prompt := _system_prompt self;
         _verbose := _verbose self;
         _agent := a |}.

(** An engine of a Python run: its memory and its agent are live objects,
    and the agent was built over the engine's memory. *)
Definition well_formed (self : ReActChatEngine) (w : World) : Prop :=
  is_Some (memories w !! _memory self)
  /\ exists ag, agents w !! _agent self = Some ag /\ ae_memory ag = _memory self.

End Engine.

(** ** A small instance

    Tools and models are named by strings, a model being chat-style when
    its flag is set; the agent answers every input by echoing it, counts
    its runs, and appends the exchange to the memory. *)

#[export] Instance EchoBridge : Bridge := {|
  QueryEngineTool := string;
  BaseQueryEngine := string;
  Tool := string;
  BaseLanguageModel := bool * string;
  AgentState := nat;
  as_langchain_tool := fun t => "tool:" ++ t;
  QueryEngineTool_from_defaults := fun q name _ => default q name;
  is_chat_model := fst;
  initial_agent_state := 0
|}.

Definition echo_run (ag : AgentExecutor) (ms : list BaseMessage) (input : string)
    : RunOutcome :=
  {| run_result := Ok ("echo: " ++ input);
     run_state := S (ae_state ag);
     run_messages := ms ++ [HumanMessage input; AIMessage ("echo: " ++ input)] |}.

#[export] Instance EchoRuntime : AgentRuntime := {|
  ServiceContext_from_defaults :=
    mkServiceContext (LLMPredictor (OtherLLM "OpenAI"));
  agent_run := echo_run;
  agent_arun := echo_run
|}.

Definition echo_tools : list QueryEngineTool := ["wiki"].

Definition echo_chat_llm : LangChainLLM := mkLangChainLLM (true, "chat-model").

Definition echo_context : ServiceContext :=
  mkServiceContext (LLMPredictor (IsLangChainLLM echo_chat_llm)).

Definition mock_context : ServiceContext :=
  mkServiceContext (OtherPredictor "MockLLMPredictor").

Definition echo_history : list ChatMessage :=
  [mkChatMessage USER "hi"; mkChatMessage ASSISTANT "hello"].

Definition empty_world : World := mkWorld ∅ ∅ [].

(** A store holding one summary memory (address 0) with two messages. *)
Definition summary_memory : BaseChatMemory :=
  {| memory_class := ConversationSummaryMemory;
     memory_key := "history";
     chat_memory := mkChatMessageHistory [HumanMessage "hi"; AIMessage "hello"];
     return_messages := false |}.

Definition summary_world : World := mkWorld {[ 0 := summary_memory ]} ∅ [].

(** The engine the constructor builds over that memory, and its store. *)
Definition summary_engine : ReActChatEngine :=
  {| _query_engine_tools := echo_tools;
     _llm := echo_chat_llm;
     _memory := 0;
     _system_prompt := Some "Be brief.";
     _verbose := false;
     _agent := 0 |}.

Definition summary_engine_world : World :=
  snd (__init__ echo_tools echo_chat_llm 0 (Some "Be brief.") false summary_world).

(** The engine [from_defaults] builds from [echo_history] over the empty
    store, with its store. *)
Definition echo_start : Result ReActChatEngine * World :=
  from_defaults echo_tools (Some echo_context) None (Some echo_history)
    false (Some "Be brief.") None empty_world.

(** A store holding one buffer memory (address 0) with one message, and
    the engine the constructor builds over it for a completion-style
    model. *)
Definition buffer_memory : BaseChatMemory :=
  new_ConversationBufferMemory "chat_history"
    (mkChatMessageHistory [HumanMessage "hi"]) false.

Definition buffer_world : World := mkWorld {[ 0 := buffer_memory ]} ∅ [].

Definition echo_text_llm : LangChainLLM := mkLangChainLLM (false, "text-model").

Definition text_context : ServiceContext :=
  mkServiceContext (LLMPredictor (IsLangChainLLM echo_text_llm)).

Definition buffer_engine : ReActChatEngine :=
  {| _query_engine_tools := echo_tools;
     _llm := echo_text_llm;
     _memory := 0;
     _system_prompt := None;
     _verbose := true;
     _agent := 0 |}.

Definition buffer_engine_world : World :=
  snd (__init__ echo_tools echo_text_llm 0 None true buffer_world).

(** The agents the constructor builds for the two engines above. *)
Definition summary_agent : AgentExecutor :=
  {| ae_tools := ["tool:wiki"];
     ae_llm := (true, "chat-model");
     ae_agent := CHAT_CONVERSATIONAL_REACT_DESCRIPTION;
     ae_memory := 0;
     ae_verbose := false;
     ae_agent_kwargs := {[ "system_message" := "Be brief." ]};
     ae_state := 0 |}.

Definition buffer_agent : AgentExecutor :=
  {| ae_tools := ["tool:wiki"];
     ae_llm := (false, "text-model");
     ae_agent := CONVERSATIONAL_REACT_DESCRIPTION;
     ae_memory := 0;
     ae_verbose := true;
     ae_agent_kwargs := ∅;
     ae_state := 0 |}.

(** The engine of [echo_start] and its store. *)
Definition echo_engine : ReActChatEngine :=
  {| _query_engine_tools := echo_tools;
     _llm := echo_chat_llm;
     _memory := 0;
     _system_prompt := Some "Be brief.";
     _verbose := false;
     _agent := 0 |}.

Definition echo_engine_world : World := snd echo_start.

(** * Properties *)

Section Properties.
Context `{R : AgentRuntime}.

(** Unfolds the monad and the store operations down to the store. *)
Ltac step_store :=
  unfold bind, ret, raise, read_memory, write_memory, alloc_memory,
    read_agent, write_agent, alloc_agent, log;
  cbv beta.

(** ** The message translation *)

Lemma from_to_lc_message (m : ChatMessage) : from_lc_message (to_lc_message m) = m.
Proof. destruct m as [[] c]; reflexivity. Qed.

Lemma from_to_lc_messages (h : list ChatMessage) :
  from_lc_messages (to_lc_messages h) = h.
Proof.
  unfold from_lc_messages, to_lc_messages.
  induction h as [|m h IH]; simpl; [reflexivity|].
  rewrite from_to_lc_message. f_equal. exact IH.
Qed.

Lemma or_empty_some (h : list ChatMessage) : or_empty (Some h) = h.
Proof. destruct h; reflexivity. Qed.

(** ** The store *)

Lemma fresh_agent_unused (w : World) : agents w !! fresh (dom (agents w)) = None.
Proof. apply not_elem_of_dom, is_fresh. Qed.

Lemma fresh_agent_differs (w : World) (a : addr) :
  is_Some (agents w !! a) -> fresh (dom (agents w)) ≠ a.
Proof.
  intros Ha Heq. rewrite <- Heq in Ha.
  rewrite fresh_agent_unused in Ha. destruct Ha as [? ?]; discriminate.
Qed.

(** ** Building the agent *)

(** [_create_agent] allocates one executor at an unused address; its fields
    are the arguments of [initialize_agent]. *)
Lemma create_agent_over_alloc
    (tools : list QueryEngineTool) (l : LangChainLLM) (mem : addr)
    (sp : option string) (v : bool) (w : World) :
  exists ag : AgentExecutor,
    create_agent_over tools l mem sp v w
    = (Ok (fresh (dom (agents w))),
       mkWorld (memories w) (<[fresh (dom (agents w)) := ag]> (agents w)) (trace w))
    /\ ae_tools ag = map as_langchain_tool tools
    /\ ae_llm ag = llm l
    /\ ae_memory ag = mem
    /\ ae_verbose ag = v
    /\ ae_state ag = initial_agent_state
    /\ ae_agent ag = (if is_chat_model (llm l)
                      then CHAT_CONVERSATIONAL_REACT_DESCRIPTION
                      else CONVERSATIONAL_REACT_DESCRIPTION)
    /\ ae_agent_kwargs ag
       = match sp with
         | Some p => {[ (if is_chat_model (llm l) then "system_message" else "prefix") := p ]}
         | None => ∅
         end.
Proof.
  unfold create_agent_over, initialize_agent, alloc_agent.
  destruct (is_chat_model (llm l)); destruct sp as [p|]; simpl;
    eexists; (split; [reflexivity|]); simpl; repeat split; reflexivity.
Qed.

Lemma init_alloc
    (tools : list QueryEngineTool) (l : LangChainLLM) (mem : addr)
    (sp : option string) (v : bool) (w : World) :
  exists ag : AgentExecutor,
    __init__ tools l mem sp v w
    = (Ok (mkEngine tools l mem sp v (fresh (dom (agents w)))),
       mkWorld (memories w) (<[fresh (dom (agents w)) := ag]> (agents w)) (trace w))
    /\ ae_memory ag = mem.
Proof.
  destruct (create_agent_over_alloc tools l mem sp v w) as (ag & Hrun & _ & _ & Hm & _).
  exists ag. split; [|exact Hm].
  unfold __init__, bind. rewrite Hrun. reflexivity.
Qed.

(** ** Reading the history *)

Lemma chat_history_read (self : ReActChatEngine) (w : World) (m : BaseChatMemory) :
  memories w !! _memory self = Some m ->
  chat_history self w
  = if isinstance_ConversationBufferMemory m
    then (Ok (from_lc_messages (messages (chat_memory m))), w)
    else (Raise AssertionError, w).
Proof.
  intros Hm. unfold chat_history, bind, read_memory. rewrite Hm.
  destruct (isinstance_ConversationBufferMemory m); reflexivity.
Qed.

(** ** Forwarding to the agent *)

(** Without an override the call reaches the agent: its entry point is
    recorded in the trace. *)
Lemma chat_reaches_agent (self : ReActChatEngine) (message : string) (w : World) :
  exists rest, trace (snd (chat self message None w))
               = (trace w ++ EvRun (_agent self) message :: rest)%list.
Proof.
  unfold chat, AgentExecutor_run, invoke, bind, log, read_agent, read_memory,
    write_agent, write_memory, ret, raise. simpl.
  destruct (agents w !! _agent self) as [ag|]; simpl; [|exists []; reflexivity].
  destruct (memories w !! ae_memory ag) as [m|]; simpl; [|exists []; reflexivity].
  destruct (run_result _); simpl; exists []; reflexivity.
Qed.

(** C1: whenever [from_defaults] is given both a memory and a chat
    history, it raises a [ValueError] (one of its three validation
    messages) and the store is left as it was, so that no memory, agent or
    engine has been built; the same holds for [from_query_engine], which
    delegates to it. *)
Theorem from_defaults_rejects_memory_with_history
    (tools : list QueryEngineTool) (sc : option ServiceContext) (m : addr)
    (h : list ChatMessage) (verbose : bool) (sp : option string)
    (pm : option (list ChatMessage)) (w : World)
    (qe : BaseQueryEngine) (name description : option string) (kwargs : Kwargs) :
  (exists msg,
      from_defaults tools sc (Some m) (Some h) verbose sp pm w
      = (Raise (ValueError msg), w)
      /\ msg ∈ ["Currently only supports LLMPredictor.";
                "Currently only supports LangChain based LLM.";
                "Cannot specify both memory and chat_history."])
  /\ (exists msg,
      from_query_engine qe name description sc (Some m) (Some h) verbose kwargs w
      = (Raise (ValueError msg), w)).
Proof.
  unfold from_query_engine, from_defaults.
  destruct (llm_predictor _) as [[l|c]|c]; simpl; unfold raise;
    (split; [eexists; split; [reflexivity|set_solver] | eexists; reflexivity]).
Qed.

(** C2: [stream_chat] and [astream_chat] raise [NotImplementedError] for
    every engine, message, history and store; the store (memory, agents
    and the trace of calls that reached the agent) is left as it was, and
    the outcome does not depend on the engine, the arguments or the store. *)
Theorem streaming_always_raises
    (self : ReActChatEngine) (message : string)
    (history : option (list ChatMessage)) (w : World) :
  stream_chat self message history w
  = (Raise (NotImplementedError "stream_chat() is not supported for ReActChatEngine."), w)
  /\ astream_chat self message history w
     = (Raise (NotImplementedError "astream_chat() is not supported for ReActChatEngine."), w)
  /\ (forall self' message' history' w',
         fst (stream_chat self' message' history' w')
         = fst (stream_chat self message history w)
         /\ fst (astream_chat self' message' history' w')
            = fst (astream_chat self message history w)).
Proof.
  repeat split.
Qed.

(** C3: [chat] and [achat] with a chat-history override that is not
    None, the empty list included, raise [NotImplementedError] and leave
    the store as it was: the memory and the agents are unchanged and no
    call to the agent's run entry point has been recorded. *)
Theorem chat_rejects_history_override
    (self : ReActChatEngine) (message : string) (h : list ChatMessage) (w : World) :
  chat self message (Some h) w
  = (Raise (NotImplementedError
              "chat_history argument is not supported for ReActChatEngine."), w)
  /\ achat self message (Some h) w
     = (Raise (NotImplementedError
                 "chat_history argument is not supported for ReActChatEngine."), w)
  /\ trace (snd (chat self message (Some h) w)) = trace w
  /\ trace (snd (achat self message (Some h) w)) = trace w.
Proof.
  repeat split.
Qed.

(** ** Reset *)

(** What [reset] does to the engine and the store, in one equation. *)
Lemma reset_run (self : ReActChatEngine) (w : World) (m : BaseChatMemory) :
  memories w !! _memory self = Some m ->
  exists ag : AgentExecutor,
    reset self w
    = (Ok (mkEngine (_query_engine_tools self) (_llm self) (_memory self)
             (_system_prompt self) (_verbose self) (fresh (dom (agents w)))),
       mkWorld (<[_memory self := cleared m]> (memories w))
               (<[fresh (dom (agents w)) := ag]> (agents w))
               (trace w))
    /\ ae_tools ag = map as_langchain_tool (_query_engine_tools self)
    /\ ae_llm ag = llm (_llm self)
    /\ ae_memory ag = _memory self
    /\ ae_verbose ag = _verbose self
    /\ ae_state ag = initial_agent_state
    /\ ae_agent ag = (if is_chat_model (llm (_llm self))
                      then CHAT_CONVERSATIONAL_REACT_DESCRIPTION
                      else CONVERSATIONAL_REACT_DESCRIPTION)
    /\ ae_agent_kwargs ag
       = match _system_prompt self with
         | Some p =>
           {[ (if is_chat_model (llm (_llm self)) then "system_message" else "prefix") := p ]}
         | None => ∅
         end.
Proof.
  intros Hm.
  set (w1 := mkWorld (<[_memory self := cleared m]> (memories w)) (agents w) (trace w)).
  destruct (create_agent_over_alloc (_query_engine_tools self) (_llm self)
              (_memory self) (_system_prompt self) (_verbose self) w1)
    as (ag & Hrun & Hfields).
  exists ag. split; [|exact Hfields].
  unfold reset, memory_clear, _create_agent. step_store.
  rewrite Hm. cbv beta iota. fold w1. rewrite Hrun. reflexivity.
Qed.

(** C4: [reset] returns, for an engine whose memory and agent are in
    the store.  Afterwards the engine still holds the memory object it
    held before the call, and that object's message list is empty (its
    class, key and return-messages flag are kept).  The engine's agent is
    a new executor: its address was unused before the call, differs from
    the address of the agent that was live, and the object there is the
    one [initialize_agent] builds from the engine's tools, language model,
    memory, system prompt and verbosity: the agent variant that the
    language model calls for, over the engine's memory, in its initial
    state. *)
Theorem reset_clears_memory_and_rebuilds_agent
    (self : ReActChatEngine) (w : World) (m : BaseChatMemory)
    (Hmem : memories w !! _memory self = Some m)
    (Hagent : is_Some (agents w !! _agent self)) :
  exists (self' : ReActChatEngine) (w' : World) (m' : BaseChatMemory)
         (ag : AgentExecutor),
    reset self w = (Ok self', w')
    /\ _memory self' = _memory self
    /\ memories w' !! _memory self = Some m'
    /\ memories w' !! _memory self' = Some m'
    /\ messages (chat_memory m') = []
    /\ memory_class m' = memory_class m
    /\ memory_key m' = memory_key m
    /\ return_messages m' = return_messages m
    /\ _agent self' ≠ _agent self
    /\ agents w !! _agent self' = None
    /\ agents w' !! _agent self' = Some ag
    /\ ae_tools ag = map as_langchain_tool (_query_engine_tools self)
    /\ ae_llm ag = llm (_llm self)
    /\ ae_memory ag = _memory self
    /\ ae_memory ag = _memory self'
    /\ ae_verbose ag = _verbose self
    /\ ae_state ag = initial_agent_state
    /\ ae_agent ag = (if is_chat_model (llm (_llm self))
                      then CHAT_CONVERSATIONAL_REACT_DESCRIPTION
                      else CONVERSATIONAL_REACT_DESCRIPTION)
    /\ ae_agent_kwargs ag
       = match _system_prompt self with
         | Some p =>
           {[ (if is_chat_model (llm (_llm self)) then "system_message" else "prefix") := p ]}
         | None => ∅
         end.
Proof.
  destruct (reset_run self w m Hmem)
    as (ag & Hrun & Htools & Hllm & Hm & Hv & Hst & Hty & Hkw).
  eexists _, _, (cleared m), ag. split; [exact Hrun|]. simpl.
  split; [reflexivity|].
  split; [apply lookup_insert_eq|].
  split; [apply lookup_insert_eq|].
  do 4 (split; [reflexivity|]).
  split; [apply fresh_agent_differs; exact Hagent|].
  split; [apply fresh_agent_unused|].
  split; [apply lookup_insert_eq|].
  repeat split; assumption.
Qed.

(** C5: when [from_defaults] is given a chat history [h] and no memory
    (and a service context it accepts, and no prefix messages), it returns
    an engine whose [chat_history], read before any chat call, is [h]:
    translating to the external message format and back loses neither
    role nor content. *)
Theorem chat_history_round_trip
    (tools : list QueryEngineTool) (sc : option ServiceContext) (l : LangChainLLM)
    (h : list ChatMessage) (verbose : bool) (sp : option string) (w : World)
    (Hsc : llm_predictor (default ServiceContext_from_defaults sc)
           = LLMPredictor (IsLangChainLLM l)) :
  exists (self : ReActChatEngine) (w' : World),
    from_defaults tools sc None (Some h) verbose sp None w = (Ok self, w')
    /\ chat_history self w' = (Ok h, w')
    /\ from_lc_messages (to_lc_messages h) = h.
Proof.
  unfold from_defaults.
  replace (match sc with Some sc0 => sc0 | None => ServiceContext_from_defaults end)
    with (default ServiceContext_from_defaults sc) by (destruct sc; reflexivity).
  rewrite Hsc. cbv beta iota zeta. rewrite or_empty_some.
  unfold bind at 1, alloc_memory at 1. cbv beta iota zeta.
  match goal with
  | |- context [__init__ tools l ?a sp verbose ?w1] =>
    destruct (init_alloc tools l a sp verbose w1) as (ag & Hinit & _);
    rewrite Hinit
  end.
  eexists _, _. split; [reflexivity|].
  split; [|apply from_to_lc_messages].
  erewrite chat_history_read by (simpl; apply lookup_insert_eq).
  simpl. rewrite from_to_lc_messages. reflexivity.
Qed.

(** C6: [_create_agent] always returns a new executor; its agent type is
    the chat-conversational variant exactly when the language model is
    chat-style and the plain conversational variant exactly when it is
    not; a system prompt, when present, is the only entry of the agent
    keyword arguments, under the key system_message in the chat-style case
    and under the key prefix in the completion-style case, and without a
    system prompt the keyword arguments are empty. *)
Theorem create_agent_selects_variant (self : ReActChatEngine) (w : World) :
  exists (a : addr) (w' : World) (ag : AgentExecutor),
    _create_agent self w = (Ok a, w')
    /\ agents w' !! a = Some ag
    /\ (ae_agent ag = CHAT_CONVERSATIONAL_REACT_DESCRIPTION
        <-> is_chat_model (llm (_llm self)) = true)
    /\ (ae_agent ag = CONVERSATIONAL_REACT_DESCRIPTION
        <-> is_chat_model (llm (_llm self)) = false)
    /\ ae_agent_kwargs ag
       = match _system_prompt self with
         | Some p =>
           if is_chat_model (llm (_llm self))
           then {[ "system_message" := p ]}
           else {[ "prefix" := p ]}
         | None => ∅
         end.
Proof.
  destruct (create_agent_over_alloc (_query_engine_tools self) (_llm self)
              (_memory self) (_system_prompt self) (_verbose self) w)
    as (ag & Hrun & _ & _ & _ & _ & _ & Hty & Hkw).
  eexists _, _, ag. split; [exact Hrun|]. simpl.
  split; [apply lookup_insert_eq|].
  rewrite Hty, Hkw.
  destruct (is_chat_model (llm (_llm self))); destruct (_system_prompt self);
    repeat split; intros; congruence.
Qed.

(** C7: [from_defaults] with prefix messages that are not None, the
    empty list included, raises an exception (the not-implemented error
    for prefix messages, or a [ValueError] from an earlier check) and no
    agent, hence no engine, has been built. *)
Theorem from_defaults_rejects_prefix_messages
    (tools : list QueryEngineTool) (sc : option ServiceContext)
    (memory : option addr) (history : option (list ChatMessage))
    (verbose : bool) (sp : option string) (pm : list ChatMessage) (w : World) :
  exists (e : exn) (w' : World),
    from_defaults tools sc memory history verbose sp (Some pm) w = (Raise e, w')
    /\ agents w' = agents w
    /\ trace w' = trace w
    /\ (e = NotImplementedError "prefix_messages is not supported for ReActChatEngine."
        \/ exists msg, e = ValueError msg).
Proof.
  unfold from_defaults.
  destruct (llm_predictor _) as [[l|c]|c]; simpl; unfold raise.
  - destruct history as [h|], memory as [m|]; simpl;
      unfold bind, ret, alloc_memory, raise; simpl;
      eexists _, _; (split; [reflexivity|]); simpl; eauto.
  - eexists _, _; split; [reflexivity|]; eauto.
  - eexists _, _; split; [reflexivity|]; eauto.
Qed.

(** C8: when the predictor of the service context in effect is not an
    [LLMPredictor], or its language model is not LangChain based,
    [from_defaults] raises a [ValueError] with the matching message and the
    store is left as it was: no memory object, agent or engine has been
    created. *)
Theorem from_defaults_rejects_unsupported_llm
    (tools : list QueryEngineTool) (sc : option ServiceContext)
    (memory : option addr) (history : option (list ChatMessage))
    (verbose : bool) (sp : option string) (pm : option (list ChatMessage))
    (w : World)
    (Hsc : (exists c, llm_predictor (default ServiceContext_from_defaults sc)
                      = OtherPredictor c)
           \/ (exists c, llm_predictor (default ServiceContext_from_defaults sc)
                         = LLMPredictor (OtherLLM c))) :
  exists msg,
    from_defaults tools sc memory history verbose sp pm w = (Raise (ValueError msg), w)
    /\ (msg = "Currently only supports LLMPredictor."
        <-> exists c, llm_predictor (default ServiceContext_from_defaults sc)
                      = OtherPredictor c)
    /\ (msg = "Currently only supports LangChain based LLM."
        <-> exists c, llm_predictor (default ServiceContext_from_defaults sc)
                      = LLMPredictor (OtherLLM c)).
Proof.
  unfold from_defaults.
  replace (match sc with Some sc0 => sc0 | None => ServiceContext_from_defaults end)
    with (default ServiceContext_from_defaults sc) by (destruct sc; reflexivity).
  destruct Hsc as [[c Hc]|[c Hc]]; rewrite Hc; simpl; unfold raise;
    eexists; (split; [reflexivity|]); split; split;
    first [ intros _; eexists; reflexivity
          | intros [? ?]; discriminate
          | intros ?; discriminate ].
Qed.

(** C9: over a memory object that is not a ConversationBufferMemory,
    reading [chat_history] raises [AssertionError] and returns no list:
    for any engine holding that memory, for the engine the constructor
    builds over it, and for the engine [from_defaults] builds when handed
    it; and whenever the read does return, the memory is a
    ConversationBufferMemory. *)
Theorem chat_history_asserts_buffer_memory
    (tools : list QueryEngineTool) (l : LangChainLLM) (a : addr)
    (sp : option string) (verbose : bool) (w : World) (m : BaseChatMemory)
    (Hmem : memories w !! a = Some m)
    (Hcls : isinstance_ConversationBufferMemory m = false) :
  (forall self, _memory self = a -> chat_history self w = (Raise AssertionError, w))
  /\ (exists self w',
        __init__ tools l a sp verbose w = (Ok self, w')
        /\ chat_history self w' = (Raise AssertionError, w'))
  /\ (forall sc,
        llm_predictor (default ServiceContext_from_defaults sc)
        = LLMPredictor (IsLangChainLLM l) ->
        exists self w',
          from_defaults tools sc (Some a) None verbose sp None w = (Ok self, w')
          /\ chat_history self w' = (Raise AssertionError, w'))
  /\ (forall self w0 h,
        chat_history self w0 = (Ok h, w0) ->
        exists m0, memories w0 !! _memory self = Some m0
                   /\ memory_class m0 = ConversationBufferMemory).
Proof.
  assert (Hbuilt : exists self w',
             __init__ tools l a sp verbose w = (Ok self, w')
             /\ chat_history self w' = (Raise AssertionError, w')).
  { destruct (init_alloc tools l a sp verbose w) as (ag & Hinit & _).
    eexists _, _. split; [exact Hinit|].
    erewrite chat_history_read by (simpl; exact Hmem).
    rewrite Hcls. reflexivity. }
  split; [|split; [exact Hbuilt|split]].
  - intros self Hself.
    erewrite chat_history_read by (rewrite Hself; exact Hmem).
    rewrite Hcls. reflexivity.
  - intros sc Hsc. unfold from_defaults.
    replace (match sc with Some sc0 => sc0 | None => ServiceContext_from_defaults end)
      with (default ServiceContext_from_defaults sc) by (destruct sc; reflexivity).
    rewrite Hsc. exact Hbuilt.
  - intros self w0 h. unfold chat_history. step_store.
    destruct (memories w0 !! _memory self) as [m0|]; [|discriminate].
    unfold isinstance_ConversationBufferMemory.
    destruct (memory_class m0) eqn:Hc; try discriminate.
    intros _. exists m0. split; [reflexivity|exact Hc].
Qed.


(** ** Engines stay well formed *)

Lemma init_well_formed
    (tools : list QueryEngineTool) (l : LangChainLLM) (a : addr)
    (sp : option string) (verbose : bool) (w : World) :
  is_Some (memories w !! a) ->
  exists self w',
    __init__ tools l a sp verbose w = (Ok self, w') /\ well_formed self w'.
Proof.
  intros Ha. destruct (init_alloc tools l a sp verbose w) as (ag & Hinit & Hm).
  eexists _, _. split; [exact Hinit|]. split; simpl; [exact Ha|].
  exists ag. split; [apply lookup_insert_eq|exact Hm].
Qed.

Lemma from_defaults_well_formed
    (tools : list QueryEngineTool) (sc : option ServiceContext)
    (memory : option addr) (history : option (list ChatMessage))
    (verbose : bool) (sp : option string) (pm : option (list ChatMessage))
    (w w' : World) (self : ReActChatEngine) :
  (forall a, memory = Some a -> is_Some (memories w !! a)) ->
  from_defaults tools sc memory history verbose sp pm w = (Ok self, w') ->
  well_formed self w'.
Proof.
  intros Hlive. unfold from_defaults.
  destruct (llm_predictor _) as [[l|c]|c]; [|discriminate|discriminate].
  assert (Hinit : forall a w1, is_Some (memories w1 !! a) ->
            __init__ tools l a sp verbose w1 = (Ok self, w') -> well_formed self w').
  { intros a w1 Ha Hrun.
    destruct (init_well_formed tools l a sp verbose w1 Ha) as (s1 & w2 & Hrun' & Hwf).
    rewrite Hrun in Hrun'. injection Hrun' as -> ->. exact Hwf. }
  destruct memory as [a|].
  - destruct history as [h|]; [discriminate|].
    unfold bind at 1, ret at 1. destruct pm as [p|]; [discriminate|].
    apply Hinit, Hlive. reflexivity.
  - assert (Hnew : forall h,
              bind
                (alloc_memory
                   (new_ConversationBufferMemory "chat_history"
                      (mkChatMessageHistory (to_lc_messages (or_empty h)))
                      (is_chat_model (llm l))))
                (fun memory =>
                   match pm with
                   | Some _ =>
                     raise (NotImplementedError
                              "prefix_messages is not supported for ReActChatEngine.")
                   | None => __init__ tools l memory sp verbose
                   end) w = (Ok self, w') -> well_formed self w').
    { intros h. unfold bind at 1, alloc_memory at 1. cbv beta iota zeta.
      destruct pm as [p|]; [discriminate|].
      apply Hinit. simpl. rewrite lookup_insert_eq. eauto. }
    destruct history as [h|]; apply Hnew.
Qed.

Lemma reset_well_formed (self : ReActChatEngine) (w : World) :
  well_formed self w ->
  exists self' w', reset self w = (Ok self', w') /\ well_formed self' w'.
Proof.
  intros [[m Hm] _].
  destruct (reset_run self w m Hm) as (ag & Hrun & _ & _ & Hag & _).
  eexists _, _. split; [exact Hrun|]. split; simpl.
  - rewrite lookup_insert_eq. eauto.
  - exists ag. split; [apply lookup_insert_eq|exact Hag].
Qed.

Lemma chat_well_formed (self : ReActChatEngine) (message : string)
    (history : option (list ChatMessage)) (w : World) :
  well_formed self w -> well_formed self (snd (chat self message history w)).
Proof.
  intros Hwf. destruct history as [h|]; [exact Hwf|].
  destruct Hwf as [[m Hm] (ag & Hag & Hagm)].
  unfold chat, AgentExecutor_run, invoke. step_store. simpl.
  rewrite Hag. simpl. rewrite Hagm, Hm. simpl.
  assert (Hwf' : well_formed self
            (mkWorld
               (<[_memory self := with_outcome_messages m
                    (agent_run ag (messages (chat_memory m)) message)]> (memories w))
               (<[_agent self := with_outcome_state ag
                    (agent_run ag (messages (chat_memory m)) message)]> (agents w))
               (trace w ++ [EvRun (_agent self) message])%list)).
  { split; simpl.
    - rewrite lookup_insert_eq. eauto.
    - eexists. split; [apply lookup_insert_eq|]. simpl. exact Hagm. }
  destruct (run_result _); simpl; exact Hwf'.
Qed.

End Properties.

(** ** The theorems at the small instance *)

Lemma reset_clears_memory_and_rebuilds_agent_witness :
  memories summary_engine_world !! _memory summary_engine = Some summary_memory
  /\ is_Some (agents summary_engine_world !! _agent summary_engine)
  /\ messages (chat_memory summary_memory) = [HumanMessage "hi"; AIMessage "hello"]
  /\ exists self' w' m' ag,
       reset summary_engine summary_engine_world = (Ok self', w')
       /\ _memory self' = _memory summary_engine
       /\ memories w' !! _memory summary_engine = Some m'
       /\ memories w' !! _memory self' = Some m'
       /\ messages (chat_memory m') = []
       /\ memory_class m' = ConversationSummaryMemory
       /\ _agent self' ≠ _agent summary_engine
       /\ agents summary_engine_world !! _agent self' = None
       /\ agents w' !! _agent self' = Some ag
       /\ ae_memory ag = _memory summary_engine
       /\ ae_agent ag = CHAT_CONVERSATIONAL_REACT_DESCRIPTION
       /\ ae_state ag = 0.
Proof.
  assert (Hmem : memories summary_engine_world !! _memory summary_engine
                 = Some summary_memory) by (vm_compute; reflexivity).
  assert (Hagent : is_Some (agents summary_engine_world !! _agent summary_engine))
    by (vm_compute; eexists; reflexivity).
  split; [exact Hmem|]. split; [exact Hagent|]. split; [reflexivity|].
  destruct (reset_clears_memory_and_rebuilds_agent (B:=EchoBridge)
              summary_engine summary_engine_world summary_memory Hmem Hagent)
    as (self' & w' & m' & ag & Hrun & Hsame & Hm & Hm' & Hempty & Hcls & _ & _
        & Hne & Hnew & Hag & _ & _ & Hagm & _ & _ & Hst & Hty & _).
  exists self', w', m', ag. repeat split; assumption.
Defined.

Lemma chat_history_round_trip_witness :
  llm_predictor (default ServiceContext_from_defaults (Some echo_context))
  = LLMPredictor (IsLangChainLLM echo_chat_llm)
  /\ exists self w',
       from_defaults echo_tools (Some echo_context) None (Some echo_history)
         false None None empty_world = (Ok self, w')
       /\ chat_history self w' = (Ok echo_history, w').
Proof.
  assert (Hsc : llm_predictor (default ServiceContext_from_defaults (Some echo_context))
                = LLMPredictor (IsLangChainLLM echo_chat_llm)) by reflexivity.
  split; [exact Hsc|].
  destruct (chat_history_round_trip (R:=EchoRuntime) echo_tools (Some echo_context) echo_chat_llm
              echo_history false None empty_world Hsc)
    as (self & w' & Hrun & Hread & _).
  exists self, w'. split; assumption.
Defined.

Lemma from_defaults_rejects_unsupported_llm_witness :
  llm_predictor (default ServiceContext_from_defaults (Some mock_context))
  = OtherPredictor "MockLLMPredictor"
  /\ llm_predictor (default ServiceContext_from_defaults None)
     = LLMPredictor (OtherLLM "OpenAI")
  /\ (exists msg,
         from_defaults echo_tools (Some mock_context) None (Some echo_history)
           false None None empty_world = (Raise (ValueError msg), empty_world))
  /\ (exists msg,
         from_defaults echo_tools None None None true (Some "Be brief.") None empty_world
         = (Raise (ValueError msg), empty_world)).
Proof.
  assert (H1 : llm_predictor (default ServiceContext_from_defaults (Some mock_context))
               = OtherPredictor "MockLLMPredictor") by reflexivity.
  assert (H2 : llm_predictor (default ServiceContext_from_defaults None)
               = LLMPredictor (OtherLLM "OpenAI")) by reflexivity.
  split; [exact H1|]. split; [exact H2|]. split.
  - destruct (from_defaults_rejects_unsupported_llm (R:=EchoRuntime) echo_tools (Some mock_context)
                None (Some echo_history) false None None empty_world
                (or_introl (ex_intro _ "MockLLMPredictor" H1)))
      as (msg & Hrun & _).
    exists msg. exact Hrun.
  - destruct (from_defaults_rejects_unsupported_llm (R:=EchoRuntime) echo_tools None
                None None true (Some "Be brief.") None empty_world
                (or_intror (ex_intro _ "OpenAI" H2)))
      as (msg & Hrun & _).
    exists msg. exact Hrun.
Defined.

Lemma chat_history_asserts_buffer_memory_witness :
  memories summary_world !! 0 = Some summary_memory
  /\ isinstance_ConversationBufferMemory summary_memory = false
  /\ chat_history summary_engine summary_world = (Raise AssertionError, summary_world)
  /\ exists self w',
       __init__ echo_tools echo_chat_llm 0 (Some "Be brief.") false summary_world
       = (Ok self, w')
       /\ chat_history self w' = (Raise AssertionError, w').
Proof.
  assert (Hmem : memories summary_world !! 0 = Some summary_memory)
    by (vm_compute; reflexivity).
  assert (Hcls : isinstance_ConversationBufferMemory summary_memory = false)
    by reflexivity.
  split; [exact Hmem|]. split; [exact Hcls|].
  destruct (chat_history_asserts_buffer_memory (R:=EchoRuntime) echo_tools echo_chat_llm 0
              (Some "Be brief.") false summary_world summary_memory Hmem Hcls)
    as (Hany & Hbuilt & _).
  split; [apply Hany; reflexivity|exact Hbuilt].
Defined.


(** ** Runs of the small instance *)

(** An empty override is an override: the call raises and the agent is
    not reached. *)
Example chat_empty_override :
  match echo_start with
  | (Ok self, w) =>
    chat self "question" (Some []) w
    = (Raise (NotImplementedError
                "chat_history argument is not supported for ReActChatEngine."), w)
  | (Raise _, _) => False
  end.
Proof. vm_compute. reflexivity. Qed.

(** The agent and the engine share one memory object: what a run appends
    is what [chat_history] reads afterwards. *)
Example chat_then_history :
  match echo_start with
  | (Ok self, w) =>
    let '(r, w1) := chat self "question" None w in
    r = Ok (mkAgentChatResponse "echo: question")
    /\ fst (chat_history self w1)
       = Ok (echo_history ++ [mkChatMessage USER "question";
                              mkChatMessage ASSISTANT "echo: question"])%list
    /\ trace w1 = [EvRun (_agent self) "question"]
  | (Raise _, _) => False
  end.
Proof. vm_compute. repeat split. Qed.

(** After [reset] the history is empty and the agent has a new address. *)
Example reset_after_chat :
  match echo_start with
  | (Ok self, w) =>
    let '(_, w1) := chat self "question" None w in
    match reset self w1 with
    | (Ok self', w2) =>
      fst (chat_history self' w2) = Ok []
      /\ _agent self' = 1 /\ _agent self = 0 /\ _memory self' = _memory self
    | (Raise _, _) => False
    end
  | (Raise _, _) => False
  end.
Proof. vm_compute. repeat split. Qed.

(** * Further properties of the engine *)

Section Coverage.
Context `{R : AgentRuntime}.

Ltac run_store :=
  unfold bind, ret, raise, read_memory, write_memory, alloc_memory,
    read_agent, write_agent, alloc_agent, log;
  cbv beta.

Lemma fresh_key_differs (ags : gmap addr AgentExecutor) (a : addr) :
  is_Some (ags !! a) -> fresh (dom ags) ≠ a.
Proof.
  intros Ha Heq. apply elem_of_dom in Ha. rewrite <- Heq in Ha.
  exact (is_fresh (dom ags) Ha).
Qed.

(** ** Equations for the constructor and the factory *)

Lemma init_run
    (tools : list QueryEngineTool) (l : LangChainLLM) (mem : addr)
    (sp : option string) (v : bool) (w : World) :
  exists ag : AgentExecutor,
    __init__ tools l mem sp v w
    = (Ok (mkEngine tools l mem sp v (fresh (dom (agents w)))),
       mkWorld (memories w) (<[fresh (dom (agents w)) := ag]> (agents w)) (trace w))
    /\ ae_tools ag = map as_langchain_tool tools
    /\ ae_llm ag = llm l
    /\ ae_memory ag = mem
    /\ ae_verbose ag = v
    /\ ae_state ag = initial_agent_state
    /\ ae_agent ag = (if is_chat_model (llm l)
                      then CHAT_CONVERSATIONAL_REACT_DESCRIPTION
                      else CONVERSATIONAL_REACT_DESCRIPTION).
Proof.
  destruct (create_agent_over_alloc tools l mem sp v w)
    as (ag & Hrun & Ht & Hl & Hm & Hv & Hs & Hty & _).
  exists ag. split; [|repeat split; assumption].
  unfold __init__, bind. rewrite Hrun. reflexivity.
Qed.

Lemma effective_context (sc : option ServiceContext) :
  match sc with Some sc0 => sc0 | None => ServiceContext_from_defaults end
  = default ServiceContext_from_defaults sc.
Proof. destruct sc; reflexivity. Qed.

(** With a memory and nothing else in the way, the factory is the
    constructor over that memory. *)
Lemma from_defaults_with_memory
    (tools : list QueryEngineTool) (sc : option ServiceContext) (l : LangChainLLM)
    (a : addr) (v : bool) (sp : option string) (w : World) :
  llm_predictor (default ServiceContext_from_defaults sc)
  = LLMPredictor (IsLangChainLLM l) ->
  from_defaults tools sc (Some a) None v sp None w = __init__ tools l a sp v w.
Proof.
  intros Hsc. unfold from_defaults. rewrite effective_context, Hsc. reflexivity.
Qed.

(** Without a memory, it is the constructor over a new buffer memory. *)
Lemma from_defaults_without_memory
    (tools : list QueryEngineTool) (sc : option ServiceContext) (l : LangChainLLM)
    (h : option (list ChatMessage)) (v : bool) (sp : option string) (w : World) :
  llm_predictor (default ServiceContext_from_defaults sc)
  = LLMPredictor (IsLangChainLLM l) ->
  from_defaults tools sc None h v sp None w
  = __init__ tools l (fresh (dom (memories w))) sp v
      (mkWorld
         (<[fresh (dom (memories w)) :=
              new_ConversationBufferMemory "chat_history"
                (mkChatMessageHistory (to_lc_messages (or_empty h)))
                (is_chat_model (llm l))]> (memories w))
         (agents w) (trace w)).
Proof.
  intros Hsc. unfold from_defaults. rewrite effective_context, Hsc.
  destruct h; reflexivity.
Qed.

Lemma from_defaults_ok_inv
    (tools : list QueryEngineTool) (sc : option ServiceContext)
    (memory : option addr) (history : option (list ChatMessage))
    (v : bool) (sp : option string) (pm : option (list ChatMessage))
    (w w' : World) (self : ReActChatEngine) :
  from_defaults tools sc memory history v sp pm w = (Ok self, w') ->
  (exists l, llm_predictor (default ServiceContext_from_defaults sc)
             = LLMPredictor (IsLangChainLLM l))
  /\ pm = None
  /\ (memory = None \/ history = None).
Proof.
  unfold from_defaults. rewrite effective_context.
  destruct (llm_predictor _) as [[l|c]|c]; [|discriminate|discriminate].
  intros Hrun. split; [exists l; reflexivity|].
  destruct history as [h|], memory as [a|]; try discriminate;
    destruct pm as [p|]; try discriminate; auto.
Qed.

(** ** Forwarding *)

Lemma invoke_run
    (entry : AgentExecutor -> list BaseMessage -> string -> RunOutcome)
    (ev : Event) (a : addr) (input : string) (w : World)
    (ag : AgentExecutor) (m : BaseChatMemory) :
  agents w !! a = Some ag ->
  memories w !! ae_memory ag = Some m ->
  invoke entry ev a input w
  = (run_result (entry ag (messages (chat_memory m)) input),
     mkWorld
       (<[ae_memory ag :=
            with_outcome_messages m (entry ag (messages (chat_memory m)) input)]>
          (memories w))
       (<[a := with_outcome_state ag (entry ag (messages (chat_memory m)) input)]>
          (agents w))
       (trace w ++ [ev])%list).
Proof.
  intros Ha Hm. unfold invoke. run_store. simpl.
  rewrite Ha. simpl. rewrite Hm. simpl.
  destruct (run_result _); reflexivity.
Qed.

Lemma chat_run (self : ReActChatEngine) (message : string) (w : World)
    (ag : AgentExecutor) (m : BaseChatMemory) :
  agents w !! _agent self = Some ag ->
  memories w !! ae_memory ag = Some m ->
  chat self message None w
  = (match run_result (agent_run ag (messages (chat_memory m)) message) with
     | Ok s => Ok (mkAgentChatResponse s)
     | Raise e => Raise e
     end,
     mkWorld
       (<[ae_memory ag :=
            with_outcome_messages m (agent_run ag (messages (chat_memory m)) message)]>
          (memories w))
       (<[_agent self :=
            with_outcome_state ag (agent_run ag (messages (chat_memory m)) message)]>
          (agents w))
       (trace w ++ [EvRun (_agent self) message])%list).
Proof.
  intros Ha Hm. unfold chat, AgentExecutor_run, bind.
  rewrite (invoke_run _ _ _ _ _ ag m Ha Hm).
  destruct (run_result _); reflexivity.
Qed.

Lemma achat_run (self : ReActChatEngine) (message : string) (w : World)
    (ag : AgentExecutor) (m : BaseChatMemory) :
  agents w !! _agent self = Some ag ->
  memories w !! ae_memory ag = Some m ->
  achat self message None w
  = (match run_result (agent_arun ag (messages (chat_memory m)) message) with
     | Ok s => Ok (mkAgentChatResponse s)
     | Raise e => Raise e
     end,
     mkWorld
       (<[ae_memory ag :=
            with_outcome_messages m (agent_arun ag (messages (chat_memory m)) message)]>
          (memories w))
       (<[_agent self :=
            with_outcome_state ag (agent_arun ag (messages (chat_memory m)) message)]>
          (agents w))
       (trace w ++ [EvARun (_agent self) message])%list).
Proof.
  intros Ha Hm. unfold achat, AgentExecutor_arun, bind.
  rewrite (invoke_run _ _ _ _ _ ag m Ha Hm).
  destruct (run_result _); reflexivity.
Qed.

(** ** The factory *)

(** X1: [from_defaults] returns an engine exactly when the language
    model of the service context in effect is a LangChain model inside an
    [LLMPredictor], no prefix messages are given, and memory and chat
    history are not both given; in every other case it raises. *)
Theorem from_defaults_succeeds_iff
    (tools : list QueryEngineTool) (sc : option ServiceContext)
    (memory : option addr) (history : option (list ChatMessage))
    (v : bool) (sp : option string) (pm : option (list ChatMessage)) (w : World) :
  (exists self w', from_defaults tools sc memory history v sp pm w = (Ok self, w'))
  <-> ((exists l, llm_predictor (default ServiceContext_from_defaults sc)
                  = LLMPredictor (IsLangChainLLM l))
       /\ pm = None
       /\ (memory = None \/ history = None)).
Proof.
  split.
  - intros (self & w' & Hrun). eapply from_defaults_ok_inv. exact Hrun.
  - intros [[l Hsc] [Hpm Hnot]]. subst pm.
    destruct memory as [a|].
    + destruct Hnot as [Hnot | Hnot]; [discriminate|subst history].
      rewrite (from_defaults_with_memory tools sc l a v sp w Hsc).
      destruct (init_run tools l a sp v w) as (ag & Hrun & _).
      rewrite Hrun. eauto.
    + rewrite (from_defaults_without_memory tools sc l history v sp w Hsc).
      match goal with
      | |- context [__init__ tools l ?a sp v ?w1] =>
        destruct (init_run tools l a sp v w1) as (ag & Hrun & _); rewrite Hrun
      end.
      eauto.
Qed.

(** X2: without a memory argument, [from_defaults] creates the memory
    itself: the engine's memory sits at an address that held nothing
    before, and is a ConversationBufferMemory with key chat_history, the
    translated chat history (none counting as empty) as its messages, and
    a return-messages flag that tells whether the model is chat-style.
    The engine's fields are the arguments, and its agent is built over
    that memory. *)
Theorem from_defaults_creates_buffer_memory
    (tools : list QueryEngineTool) (sc : option ServiceContext) (l : LangChainLLM)
    (history : option (list ChatMessage)) (v : bool) (sp : option string)
    (w : World)
    (Hsc : llm_predictor (default ServiceContext_from_defaults sc)
           = LLMPredictor (IsLangChainLLM l)) :
  exists (self : ReActChatEngine) (w' : World) (m : BaseChatMemory)
         (ag : AgentExecutor),
    from_defaults tools sc None history v sp None w = (Ok self, w')
    /\ memories w !! _memory self = None
    /\ memories w' !! _memory self = Some m
    /\ memory_class m = ConversationBufferMemory
    /\ memory_key m = "chat_history"
    /\ messages (chat_memory m) = to_lc_messages (or_empty history)
    /\ return_messages m = is_chat_model (llm l)
    /\ _query_engine_tools self = tools
    /\ _llm self = l
    /\ _system_prompt self = sp
    /\ _verbose self = v
    /\ agents w' !! _agent self = Some ag
    /\ ae_memory ag = _memory self.
Proof.
  rewrite (from_defaults_without_memory tools sc l history v sp w Hsc).
  match goal with
  | |- context [__init__ tools l ?a sp v ?w1] =>
    destruct (init_run tools l a sp v w1) as (ag & Hrun & _ & _ & Hm & _);
    rewrite Hrun
  end.
  eexists _, _, _, ag. split; [reflexivity|]. simpl.
  split; [apply not_elem_of_dom, is_fresh|].
  split; [apply lookup_insert_eq|]. simpl.
  do 8 (split; [reflexivity|]).
  split; [apply lookup_insert_eq|exact Hm].
Qed.

(** X3: without a memory argument, an empty chat history and no chat
    history are the same call: the outcome and the store are equal. *)
Theorem from_defaults_empty_history_is_none
    (tools : list QueryEngineTool) (sc : option ServiceContext)
    (v : bool) (sp : option string) (pm : option (list ChatMessage)) (w : World) :
  from_defaults tools sc None (Some []) v sp pm w
  = from_defaults tools sc None None v sp pm w.
Proof.
  unfold from_defaults.
  destruct (llm_predictor _) as [[l|c]|c]; reflexivity.
Qed.

(** X4: a memory handed to [from_defaults] is used as it is: the engine
    refers to that very object, no memory object is created or changed,
    the agent is built over it, and when it is a ConversationBufferMemory
    the engine's chat history is the translation of the messages it
    already holds. *)
Theorem from_defaults_adopts_memory
    (tools : list QueryEngineTool) (sc : option ServiceContext) (l : LangChainLLM)
    (a : addr) (m : BaseChatMemory) (v : bool) (sp : option string) (w : World)
    (Hsc : llm_predictor (default ServiceContext_from_defaults sc)
           = LLMPredictor (IsLangChainLLM l))
    (Hmem : memories w !! a = Some m) :
  exists (self : ReActChatEngine) (w' : World) (ag : AgentExecutor),
    from_defaults tools sc (Some a) None v sp None w = (Ok self, w')
    /\ _memory self = a
    /\ memories w' = memories w
    /\ agents w' !! _agent self = Some ag
    /\ ae_memory ag = a
    /\ (isinstance_ConversationBufferMemory m = true ->
        chat_history self w' = (Ok (from_lc_messages (messages (chat_memory m))), w')).
Proof.
  rewrite (from_defaults_with_memory tools sc l a v sp w Hsc).
  destruct (init_run tools l a sp v w) as (ag & Hrun & _ & _ & Hm & _).
  rewrite Hrun. eexists _, _, ag. split; [reflexivity|]. simpl.
  do 2 (split; [reflexivity|]).
  split; [apply lookup_insert_eq|]. split; [exact Hm|].
  intros Hcls. erewrite chat_history_read by (simpl; exact Hmem).
  rewrite Hcls. reflexivity.
Qed.

(** X5: the prefix-messages check is the last one.  With an accepted
    service context: when memory and chat history are both given, the
    [ValueError] about them is raised even if prefix messages are given
    too; when a memory is given, prefix messages are rejected with the
    store unchanged; when no memory is given, the buffer memory has
    already been created by the time prefix messages are rejected, so the
    store holds one more memory object (and no new agent). *)
Theorem from_defaults_prefix_check_is_last
    (tools : list QueryEngineTool) (sc : option ServiceContext) (l : LangChainLLM)
    (a : addr) (h : list ChatMessage) (history : option (list ChatMessage))
    (v : bool) (sp : option string) (pm : list ChatMessage) (w : World)
    (Hsc : llm_predictor (default ServiceContext_from_defaults sc)
           = LLMPredictor (IsLangChainLLM l)) :
  from_defaults tools sc (Some a) (Some h) v sp (Some pm) w
  = (Raise (ValueError "Cannot specify both memory and chat_history."), w)
  /\ from_defaults tools sc (Some a) None v sp (Some pm) w
     = (Raise (NotImplementedError
                 "prefix_messages is not supported for ReActChatEngine."), w)
  /\ from_defaults tools sc None history v sp (Some pm) w
     = (Raise (NotImplementedError
                 "prefix_messages is not supported for ReActChatEngine."),
        mkWorld
          (<[fresh (dom (memories w)) :=
               new_ConversationBufferMemory "chat_history"
                 (mkChatMessageHistory (to_lc_messages (or_empty history)))
                 (is_chat_model (llm l))]> (memories w))
          (agents w) (trace w))
  /\ memories w !! fresh (dom (memories w)) = None.
Proof.
  unfold from_defaults. rewrite effective_context, Hsc.
  split; [reflexivity|]. split; [reflexivity|].
  split; [destruct history; reflexivity|].
  apply not_elem_of_dom, is_fresh.
Qed.

(** X6: whatever its arguments and its outcome, [from_defaults] leaves
    every object of the store as it was: each memory object and each agent
    that existed is still there, unchanged, and no call to an agent has
    been made. *)
Theorem from_defaults_preserves_store
    (tools : list QueryEngineTool) (sc : option ServiceContext)
    (memory : option addr) (history : option (list ChatMessage))
    (v : bool) (sp : option string) (pm : option (list ChatMessage)) (w : World) :
  memories w ⊆ memories (snd (from_defaults tools sc memory history v sp pm w))
  /\ agents w ⊆ agents (snd (from_defaults tools sc memory history v sp pm w))
  /\ trace (snd (from_defaults tools sc memory history v sp pm w)) = trace w.
Proof.
  unfold from_defaults. rewrite effective_context.
  destruct (llm_predictor _) as [[l|c]|c]; [|cbn [snd raise]; done|cbn [snd raise]; done].
  destruct memory as [a|].
  - destruct history as [h|]; [cbn [snd raise]; done|].
    unfold bind, ret. cbv beta iota zeta.
    destruct pm as [p|]; [cbn [snd raise]; done|].
    destruct (init_run tools l a sp v w) as (ag & Hrun & _). rewrite Hrun.
    cbn [snd memories agents trace].
    repeat split; first [done | apply insert_subseteq, not_elem_of_dom, is_fresh].
  - destruct history as [h|]; cbv beta iota zeta;
      unfold bind, alloc_memory; cbv beta iota zeta;
      (destruct pm as [p|];
       [ cbn [snd memories agents trace]; repeat split;
         first [done | apply insert_subseteq, not_elem_of_dom, is_fresh]
       | match goal with
         | |- context [__init__ tools l ?a sp v ?w1] =>
           destruct (init_run tools l a sp v w1) as (ag & Hrun & _); rewrite Hrun
         end;
         cbn [snd memories agents trace]; repeat split;
         first [done | apply insert_subseteq, not_elem_of_dom, is_fresh] ]).
Qed.

Lemma from_defaults_ok_fields
    (tools : list QueryEngineTool) (sc : option ServiceContext)
    (memory : option addr) (history : option (list ChatMessage))
    (v : bool) (sp : option string) (pm : option (list ChatMessage))
    (w w' : World) (self : ReActChatEngine) :
  from_defaults tools sc memory history v sp pm w = (Ok self, w') ->
  _query_engine_tools self = tools
  /\ _system_prompt self = sp
  /\ _verbose self = v
  /\ exists ag, agents w' !! _agent self = Some ag
                /\ ae_tools ag = map as_langchain_tool tools
                /\ ae_verbose ag = v
                /\ ae_memory ag = _memory self.
Proof.
  intros Hrun.
  destruct (from_defaults_ok_inv _ _ _ _ _ _ _ _ _ _ Hrun) as ((l & Hsc) & Hpm & Hnot).
  subst pm.
  assert (Hinit : forall a w1,
            __init__ tools l a sp v w1 = (Ok self, w') ->
            _query_engine_tools self = tools
            /\ _system_prompt self = sp
            /\ _verbose self = v
            /\ exists ag, agents w' !! _agent self = Some ag
                          /\ ae_tools ag = map as_langchain_tool tools
                          /\ ae_verbose ag = v
                          /\ ae_memory ag = _memory self).
  { intros a w1 Hi.
    destruct (init_run tools l a sp v w1) as (ag & Hi' & Ht & _ & Hm & Hv & _).
    rewrite Hi in Hi'. injection Hi' as -> ->. simpl.
    do 3 (split; [reflexivity|]).
    exists ag. split; [apply lookup_insert_eq|]. auto. }
  destruct memory as [a|].
  - destruct Hnot as [Hnot | Hnot]; [discriminate|subst history].
    rewrite (from_defaults_with_memory tools sc l a v sp w Hsc) in Hrun.
    eapply Hinit, Hrun.
  - rewrite (from_defaults_without_memory tools sc l history v sp w Hsc) in Hrun.
    eapply Hinit, Hrun.
Qed.

Lemma achat_well_formed (self : ReActChatEngine) (message : string)
    (history : option (list ChatMessage)) (w : World) :
  well_formed self w -> well_formed self (snd (achat self message history w)).
Proof.
  intros Hwf. destruct history as [h|]; [exact Hwf|].
  destruct Hwf as [[m Hm] (ag & Hag & Hagm)].
  assert (Hm' : memories w !! ae_memory ag = Some m) by (rewrite Hagm; exact Hm).
  rewrite (achat_run self message w ag m Hag Hm'). simpl. split; simpl.
  - rewrite Hagm, lookup_insert_eq. eauto.
  - eexists. split; [apply lookup_insert_eq|]. simpl. exact Hagm.
Qed.

(** X7: without an override, [chat] hands the message to the agent's
    run entry point, exactly once and never to the asynchronous one: the
    agent's answer comes back wrapped in a response, an exception of the
    agent comes back as it is, and the run is given the messages the
    agent's memory holds at the time of the call. *)
Theorem chat_forwards_to_run
    (self : ReActChatEngine) (message : string) (w : World)
    (ag : AgentExecutor) (m : BaseChatMemory)
    (Hagent : agents w !! _agent self = Some ag)
    (Hmem : memories w !! ae_memory ag = Some m) :
  (forall s, run_result (agent_run ag (messages (chat_memory m)) message) = Ok s ->
             fst (chat self message None w) = Ok (mkAgentChatResponse s))
  /\ (forall e, run_result (agent_run ag (messages (chat_memory m)) message) = Raise e ->
                fst (chat self message None w) = Raise e)
  /\ trace (snd (chat self message None w))
     = (trace w ++ [EvRun (_agent self) message])%list.
Proof.
  rewrite (chat_run self message w ag m Hagent Hmem). simpl.
  split; [intros s ->; reflexivity|].
  split; [intros e ->; reflexivity|reflexivity].
Qed.

(** X8: without an override, [achat] hands the message to the agent's
    asynchronous run entry point, exactly once and never to the
    synchronous one; the answer is wrapped and an exception is passed on
    as for [chat]. *)
Theorem achat_forwards_to_arun
    (self : ReActChatEngine) (message : string) (w : World)
    (ag : AgentExecutor) (m : BaseChatMemory)
    (Hagent : agents w !! _agent self = Some ag)
    (Hmem : memories w !! ae_memory ag = Some m) :
  (forall s, run_result (agent_arun ag (messages (chat_memory m)) message) = Ok s ->
             fst (achat self message None w) = Ok (mkAgentChatResponse s))
  /\ (forall e, run_result (agent_arun ag (messages (chat_memory m)) message) = Raise e ->
                fst (achat self message None w) = Raise e)
  /\ trace (snd (achat self message None w))
     = (trace w ++ [EvARun (_agent self) message])%list.
Proof.
  rewrite (achat_run self message w ag m Hagent Hmem). simpl.
  split; [intros s ->; reflexivity|].
  split; [intros e ->; reflexivity|reflexivity].
Qed.

(** X9: the engine and its agent share one memory object.  For a well
    formed engine over a ConversationBufferMemory, the chat history read
    after a [chat] call is the translation of the message list the
    agent's run left in the memory, whether the run returned or raised. *)
Theorem chat_history_after_chat
    (self : ReActChatEngine) (message : string) (w : World)
    (ag : AgentExecutor) (m : BaseChatMemory)
    (Hagent : agents w !! _agent self = Some ag)
    (Hshared : ae_memory ag = _memory self)
    (Hmem : memories w !! _memory self = Some m)
    (Hcls : isinstance_ConversationBufferMemory m = true) :
  chat_history self (snd (chat self message None w))
  = (Ok (from_lc_messages
           (run_messages (agent_run ag (messages (chat_memory m)) message))),
     snd (chat self message None w)).
Proof.
  assert (Hmem' : memories w !! ae_memory ag = Some m) by (rewrite Hshared; exact Hmem).
  rewrite (chat_run self message w ag m Hagent Hmem'). cbn [snd].
  erewrite chat_history_read
    by (cbn [memories]; rewrite Hshared; apply lookup_insert_eq).
  unfold isinstance_ConversationBufferMemory in *. simpl.
  rewrite Hcls. reflexivity.
Qed.

(** X10: [reset] discards what the agent has accumulated: the first
    [chat] after a [reset] runs an executor that is in its initial state
    and is given an empty message list. *)
Theorem chat_after_reset_starts_afresh
    (self : ReActChatEngine) (message : string) (w : World) (m : BaseChatMemory)
    (Hmem : memories w !! _memory self = Some m) :
  exists (self' : ReActChatEngine) (w' : World) (ag : AgentExecutor),
    reset self w = (Ok self', w')
    /\ agents w' !! _agent self' = Some ag
    /\ ae_state ag = initial_agent_state
    /\ fst (chat self' message None w')
       = match run_result (agent_run ag [] message) with
         | Ok s => Ok (mkAgentChatResponse s)
         | Raise e => Raise e
         end
    /\ trace (snd (chat self' message None w'))
       = (trace w ++ [EvRun (_agent self') message])%list.
Proof.
  destruct (reset_run self w m Hmem) as (ag & Hrun & _ & _ & Hagm & _ & Hst & _).
  eexists _, _, ag. split; [exact Hrun|].
  split; [apply lookup_insert_eq|]. split; [exact Hst|].
  erewrite (chat_run _ message _ ag (cleared m)).
  - split; reflexivity.
  - apply lookup_insert_eq.
  - cbn [memories]. rewrite Hagm. apply lookup_insert_eq.
Qed.

(** X11: [reset] empties the history of every engine that shares the
    memory object.  Over a ConversationBufferMemory, after one engine is
    reset, [chat_history] returns the empty list for that engine and for
    any other engine holding the same memory. *)
Theorem reset_empties_shared_history
    (self other : ReActChatEngine) (w : World) (m : BaseChatMemory)
    (Hmem : memories w !! _memory self = Some m)
    (Hcls : isinstance_ConversationBufferMemory m = true)
    (Hshared : _memory other = _memory self) :
  exists (self' : ReActChatEngine) (w' : World),
    reset self w = (Ok self', w')
    /\ chat_history self' w' = (Ok [], w')
    /\ chat_history other w' = (Ok [], w').
Proof.
  destruct (reset_run self w m Hmem) as (ag & Hrun & _).
  eexists _, _. split; [exact Hrun|].
  split.
  - erewrite chat_history_read by (cbn [memories _memory]; apply lookup_insert_eq).
    unfold isinstance_ConversationBufferMemory in *. simpl. rewrite Hcls. reflexivity.
  - erewrite chat_history_read
      by (cbn [memories]; rewrite Hshared; apply lookup_insert_eq).
    unfold isinstance_ConversationBufferMemory in *. simpl. rewrite Hcls. reflexivity.
Qed.

(** X12: a well formed engine (memory and agent live, the agent built
    over the engine's memory) stays well formed under every method:
    [reset] returns a well formed engine, and [chat], [achat],
    [stream_chat] and [astream_chat] leave it well formed whatever their
    outcome. *)
Theorem methods_keep_well_formed
    (self : ReActChatEngine) (message : string)
    (history : option (list ChatMessage)) (w : World)
    (Hwf : well_formed self w) :
  (exists self' w', reset self w = (Ok self', w') /\ well_formed self' w')
  /\ well_formed self (snd (chat self message history w))
  /\ well_formed self (snd (achat self message history w))
  /\ well_formed self (snd (stream_chat self message history w))
  /\ well_formed self (snd (astream_chat self message history w)).
Proof.
  split; [apply reset_well_formed; exact Hwf|].
  split; [apply chat_well_formed; exact Hwf|].
  split; [apply achat_well_formed; exact Hwf|].
  split; exact Hwf.
Qed.

(** X13: every engine [from_defaults] returns is well formed, provided
    the memory handed in, if any, is a live object. *)
Theorem from_defaults_builds_well_formed
    (tools : list QueryEngineTool) (sc : option ServiceContext)
    (memory : option addr) (history : option (list ChatMessage))
    (v : bool) (sp : option string) (pm : option (list ChatMessage))
    (w w' : World) (self : ReActChatEngine)
    (Hlive : forall a, memory = Some a -> is_Some (memories w !! a))
    (Hrun : from_defaults tools sc memory history v sp pm w = (Ok self, w')) :
  well_formed self w'.
Proof.
  eapply from_defaults_well_formed; [exact Hlive|exact Hrun].
Qed.

(** X14: an engine that [from_query_engine] returns has exactly one
    tool, the one made from the query engine, name and description, and
    its agent has exactly the translation of that tool; the system prompt
    is the one among the keyword arguments, the verbosity is the one
    given, and the keyword arguments held no prefix messages. *)
Theorem from_query_engine_single_tool
    (qe : BaseQueryEngine) (name description : option string)
    (sc : option ServiceContext) (memory : option addr)
    (history : option (list ChatMessage)) (v : bool) (kwargs : Kwargs)
    (w w' : World) (self : ReActChatEngine)
    (Hrun : from_query_engine qe name description sc memory history v kwargs w
            = (Ok self, w')) :
  _query_engine_tools self = [QueryEngineTool_from_defaults qe name description]
  /\ _system_prompt self = kw_system_prompt kwargs
  /\ _verbose self = v
  /\ kw_prefix_messages kwargs = None
  /\ exists ag, agents w' !! _agent self = Some ag
                /\ ae_tools ag
                   = [as_langchain_tool (QueryEngineTool_from_defaults qe name description)]
                /\ ae_verbose ag = v.
Proof.
  unfold from_query_engine in Hrun.
  destruct (from_defaults_ok_inv _ _ _ _ _ _ _ _ _ _ Hrun) as (_ & Hpm & _).
  destruct (from_defaults_ok_fields _ _ _ _ _ _ _ _ _ _ Hrun)
    as (Ht & Hsp & Hv & ag & Hag & Hat & Hav & _).
  do 4 (split; [assumption|]).
  exists ag. auto.
Qed.

(** X15: the memory [from_defaults] creates matches the agent it
    builds: the memory returns messages exactly when the agent is the
    chat-conversational variant, and returns text exactly when the agent
    is the plain conversational variant. *)
Theorem created_memory_matches_agent
    (tools : list QueryEngineTool) (sc : option ServiceContext) (l : LangChainLLM)
    (history : option (list ChatMessage)) (v : bool) (sp : option string)
    (w : World)
    (Hsc : llm_predictor (default ServiceContext_from_defaults sc)
           = LLMPredictor (IsLangChainLLM l)) :
  exists (self : ReActChatEngine) (w' : World) (m : BaseChatMemory)
         (ag : AgentExecutor),
    from_defaults tools sc None history v sp None w = (Ok self, w')
    /\ memories w' !! _memory self = Some m
    /\ agents w' !! _agent self = Some ag
    /\ ae_memory ag = _memory self
    /\ (return_messages m = true
        <-> ae_agent ag = CHAT_CONVERSATIONAL_REACT_DESCRIPTION)
    /\ (return_messages m = false
        <-> ae_agent ag = CONVERSATIONAL_REACT_DESCRIPTION).
Proof.
  rewrite (from_defaults_without_memory tools sc l history v sp w Hsc).
  match goal with
  | |- context [__init__ tools l ?a sp v ?w1] =>
    destruct (init_run tools l a sp v w1) as (ag & Hrun & _ & _ & Hm & _ & _ & Hty);
    rewrite Hrun
  end.
  eexists _, _, _, ag. split; [reflexivity|]. cbn [memories agents _memory _agent].
  split; [apply lookup_insert_eq|].
  split; [apply lookup_insert_eq|].
  split; [exact Hm|].
  rewrite Hty. simpl.
  destruct (is_chat_model (llm l)); split; split; intros; congruence.
Qed.

(** X16: a second [reset] right after a first one changes no memory
    object (the memory is already empty) and builds yet another agent: the
    three agents, before, between and after, have three different
    addresses. *)
Theorem reset_twice
    (self : ReActChatEngine) (w : World) (m : BaseChatMemory)
    (Hmem : memories w !! _memory self = Some m)
    (Hagent : is_Some (agents w !! _agent self)) :
  exists (self1 self2 : ReActChatEngine) (w1 w2 : World),
    reset self w = (Ok self1, w1)
    /\ reset self1 w1 = (Ok self2, w2)
    /\ memories w2 = memories w1
    /\ _memory self2 = _memory self
    /\ _agent self1 ≠ _agent self
    /\ _agent self2 ≠ _agent self1
    /\ _agent self2 ≠ _agent self.
Proof.
  destruct (reset_run self w m Hmem) as (ag1 & Hrun1 & _).
  match type of Hrun1 with
  | _ = (Ok ?s1, ?w1) =>
    assert (Hmem1 : memories w1 !! _memory s1 = Some (cleared m))
      by (cbn [memories _memory]; apply lookup_insert_eq);
    destruct (reset_run s1 w1 (cleared m) Hmem1) as (ag2 & Hrun2 & _)
  end.
  eexists _, _, _, _. split; [exact Hrun1|]. split; [exact Hrun2|].
  cbn [memories agents _memory _agent].
  split; [apply insert_insert_eq|]. split; [reflexivity|].
  split; [apply fresh_agent_differs; exact Hagent|].
  split.
  - apply fresh_key_differs. rewrite lookup_insert_eq. eauto.
  - apply fresh_key_differs.
    rewrite lookup_insert_ne by (apply fresh_agent_differs; exact Hagent).
    exact Hagent.
Qed.

(** X17: the conversation carries over from one [chat] call to the
    next: the second call runs the same executor, in the state the first
    run left it in, over the message list the first run left in the
    memory; both calls are recorded, in order. *)
Theorem chat_twice_carries_over
    (self : ReActChatEngine) (first second : string) (w : World)
    (ag : AgentExecutor) (m : BaseChatMemory)
    (Hagent : agents w !! _agent self = Some ag)
    (Hmem : memories w !! ae_memory ag = Some m) :
  fst (chat self second None (snd (chat self first None w)))
  = match run_result
            (agent_run
               (with_outcome_state ag
                  (agent_run ag (messages (chat_memory m)) first))
               (run_messages (agent_run ag (messages (chat_memory m)) first))
               second)
    with
    | Ok s => Ok (mkAgentChatResponse s)
    | Raise e => Raise e
    end
  /\ trace (snd (chat self second None (snd (chat self first None w))))
     = (trace w ++ [EvRun (_agent self) first; EvRun (_agent self) second])%list.
Proof.
  rewrite (chat_run self first w ag m Hagent Hmem). cbn [snd].
  erewrite (chat_run self second _
              (with_outcome_state ag (agent_run ag (messages (chat_memory m)) first))
              (with_outcome_messages m (agent_run ag (messages (chat_memory m)) first))).
  - cbn [fst snd trace]. split; [reflexivity|].
    rewrite <- app_assoc. reflexivity.
  - cbn [agents]. apply lookup_insert_eq.
  - cbn [memories]. simpl. apply lookup_insert_eq.
Qed.

End Coverage.

(** ** The further properties at the small instance *)

Lemma from_defaults_creates_buffer_memory_witness :
  llm_predictor (default ServiceContext_from_defaults (Some echo_context))
  = LLMPredictor (IsLangChainLLM echo_chat_llm)
  /\ exists self w' m,
       from_defaults echo_tools (Some echo_context) None (Some echo_history)
         false None None empty_world = (Ok self, w')
       /\ memories empty_world !! _memory self = None
       /\ memories w' !! _memory self = Some m
       /\ memory_key m = "chat_history"
       /\ return_messages m = true.
Proof.
  assert (Hsc : llm_predictor (default ServiceContext_from_defaults (Some echo_context))
                = LLMPredictor (IsLangChainLLM echo_chat_llm)) by reflexivity.
  split; [exact Hsc|].
  destruct (from_defaults_creates_buffer_memory (R:=EchoRuntime) echo_tools
              (Some echo_context) echo_chat_llm (Some echo_history) false None
              empty_world Hsc)
    as (self & w' & m & ag & Hrun & Hnew & Hm & _ & Hkey & _ & Hret & _).
  exists self, w', m. repeat split; assumption.
Defined.

Lemma from_defaults_adopts_memory_witness :
  llm_predictor (default ServiceContext_from_defaults (Some text_context))
  = LLMPredictor (IsLangChainLLM echo_text_llm)
  /\ memories buffer_world !! 0 = Some buffer_memory
  /\ exists self w',
       from_defaults echo_tools (Some text_context) (Some 0) None true None None
         buffer_world = (Ok self, w')
       /\ _memory self = 0
       /\ memories w' = memories buffer_world
       /\ chat_history self w' = (Ok [mkChatMessage USER "hi"], w').
Proof.
  assert (Hsc : llm_predictor (default ServiceContext_from_defaults (Some text_context))
                = LLMPredictor (IsLangChainLLM echo_text_llm)) by reflexivity.
  assert (Hmem : memories buffer_world !! 0 = Some buffer_memory)
    by (vm_compute; reflexivity).
  split; [exact Hsc|]. split; [exact Hmem|].
  destruct (from_defaults_adopts_memory (R:=EchoRuntime) echo_tools
              (Some text_context) echo_text_llm 0 buffer_memory true None
              buffer_world Hsc Hmem)
    as (self & w' & ag & Hrun & Hself & Hsame & _ & _ & Hread).
  exists self, w'. repeat split; try assumption.
  apply Hread. reflexivity.
Defined.

Lemma from_defaults_prefix_check_is_last_witness :
  llm_predictor (default ServiceContext_from_defaults (Some echo_context))
  = LLMPredictor (IsLangChainLLM echo_chat_llm)
  /\ from_defaults echo_tools (Some echo_context) (Some 0) (Some echo_history)
       false None (Some []) empty_world
     = (Raise (ValueError "Cannot specify both memory and chat_history."), empty_world)
  /\ from_defaults echo_tools (Some echo_context) (Some 0) None
       false None (Some []) empty_world
     = (Raise (NotImplementedError
                 "prefix_messages is not supported for ReActChatEngine."), empty_world).
Proof.
  assert (Hsc : llm_predictor (default ServiceContext_from_defaults (Some echo_context))
                = LLMPredictor (IsLangChainLLM echo_chat_llm)) by reflexivity.
  split; [exact Hsc|].
  destruct (from_defaults_prefix_check_is_last (R:=EchoRuntime) echo_tools
              (Some echo_context) echo_chat_llm 0 echo_history None false None []
              empty_world Hsc)
    as (Hboth & Hgiven & _).
  split; assumption.
Defined.

Lemma chat_forwards_to_run_witness :
  agents summary_engine_world !! _agent summary_engine = Some summary_agent
  /\ memories summary_engine_world !! ae_memory summary_agent = Some summary_memory
  /\ fst (chat summary_engine "question" None summary_engine_world)
     = Ok (mkAgentChatResponse "echo: question")
  /\ trace (snd (chat summary_engine "question" None summary_engine_world))
     = [EvRun 0 "question"].
Proof.
  assert (Hagent : agents summary_engine_world !! _agent summary_engine
                   = Some summary_agent) by (vm_compute; reflexivity).
  assert (Hmem : memories summary_engine_world !! ae_memory summary_agent
                 = Some summary_memory) by (vm_compute; reflexivity).
  split; [exact Hagent|]. split; [exact Hmem|].
  destruct (chat_forwards_to_run (R:=EchoRuntime) summary_engine "question"
              summary_engine_world summary_agent summary_memory Hagent Hmem)
    as (Hok & _ & Htrace).
  split; [apply Hok; reflexivity|exact Htrace].
Defined.

Lemma achat_forwards_to_arun_witness :
  agents summary_engine_world !! _agent summary_engine = Some summary_agent
  /\ memories summary_engine_world !! ae_memory summary_agent = Some summary_memory
  /\ fst (achat summary_engine "question" None summary_engine_world)
     = Ok (mkAgentChatResponse "echo: question")
  /\ trace (snd (achat summary_engine "question" None summary_engine_world))
     = [EvARun 0 "question"].
Proof.
  assert (Hagent : agents summary_engine_world !! _agent summary_engine
                   = Some summary_agent) by (vm_compute; reflexivity).
  assert (Hmem : memories summary_engine_world !! ae_memory summary_agent
                 = Some summary_memory) by (vm_compute; reflexivity).
  split; [exact Hagent|]. split; [exact Hmem|].
  destruct (achat_forwards_to_arun (R:=EchoRuntime) summary_engine "question"
              summary_engine_world summary_agent summary_memory Hagent Hmem)
    as (Hok & _ & Htrace).
  split; [apply Hok; reflexivity|exact Htrace].
Defined.

Lemma chat_history_after_chat_witness :
  agents buffer_engine_world !! _agent buffer_engine = Some buffer_agent
  /\ ae_memory buffer_agent = _memory buffer_engine
  /\ memories buffer_engine_world !! _memory buffer_engine = Some buffer_memory
  /\ isinstance_ConversationBufferMemory buffer_memory = true
  /\ fst (chat_history buffer_engine
            (snd (chat buffer_engine "question" None buffer_engine_world)))
     = Ok [mkChatMessage USER "hi"; mkChatMessage USER "question";
           mkChatMessage ASSISTANT "echo: question"].
Proof.
  assert (Hagent : agents buffer_engine_world !! _agent buffer_engine
                   = Some buffer_agent) by (vm_compute; reflexivity).
  assert (Hshared : ae_memory buffer_agent = _memory buffer_engine) by reflexivity.
  assert (Hmem : memories buffer_engine_world !! _memory buffer_engine
                 = Some buffer_memory) by (vm_compute; reflexivity).
  assert (Hcls : isinstance_ConversationBufferMemory buffer_memory = true)
    by reflexivity.
  do 4 (split; [assumption|]).
  rewrite (chat_history_after_chat (R:=EchoRuntime) buffer_engine "question"
             buffer_engine_world buffer_agent buffer_memory
             Hagent Hshared Hmem Hcls).
  reflexivity.
Defined.

Lemma chat_after_reset_starts_afresh_witness :
  memories summary_engine_world !! _memory summary_engine = Some summary_memory
  /\ exists self' w' ag,
       reset summary_engine summary_engine_world = (Ok self', w')
       /\ agents w' !! _agent self' = Some ag
       /\ ae_state ag = 0
       /\ fst (chat self' "question" None w') = Ok (mkAgentChatResponse "echo: question").
Proof.
  assert (Hmem : memories summary_engine_world !! _memory summary_engine
                 = Some summary_memory) by (vm_compute; reflexivity).
  split; [exact Hmem|].
  destruct (chat_after_reset_starts_afresh (R:=EchoRuntime) summary_engine
              "question" summary_engine_world summary_memory Hmem)
    as (self' & w' & ag & Hrun & Hag & Hst & Hchat & _).
  exists self', w', ag. repeat split; assumption.
Defined.

Lemma reset_empties_shared_history_witness :
  memories buffer_engine_world !! _memory buffer_engine = Some buffer_memory
  /\ isinstance_ConversationBufferMemory buffer_memory = true
  /\ _memory echo_engine = _memory buffer_engine
  /\ exists self' w',
       reset buffer_engine buffer_engine_world = (Ok self', w')
       /\ chat_history self' w' = (Ok [], w')
       /\ chat_history echo_engine w' = (Ok [], w').
Proof.
  assert (Hmem : memories buffer_engine_world !! _memory buffer_engine
                 = Some buffer_memory) by (vm_compute; reflexivity).
  assert (Hcls : isinstance_ConversationBufferMemory buffer_memory = true)
    by reflexivity.
  assert (Hshared : _memory echo_engine = _memory buffer_engine) by reflexivity.
  do 3 (split; [assumption|]).
  exact (reset_empties_shared_history (B:=EchoBridge) buffer_engine echo_engine
           buffer_engine_world buffer_memory Hmem Hcls Hshared).
Defined.

Lemma methods_keep_well_formed_witness :
  well_formed buffer_engine buffer_engine_world
  /\ well_formed buffer_engine
       (snd (chat buffer_engine "question" None buffer_engine_world))
  /\ exists self' w',
       reset buffer_engine buffer_engine_world = (Ok self', w')
       /\ well_formed self' w'.
Proof.
  assert (Hwf : well_formed buffer_engine buffer_engine_world).
  { split.
    - exists buffer_memory. vm_compute. reflexivity.
    - exists buffer_agent. split; [vm_compute; reflexivity|reflexivity]. }
  split; [exact Hwf|].
  destruct (methods_keep_well_formed (R:=EchoRuntime) buffer_engine "question" None
              buffer_engine_world Hwf)
    as (Hreset & Hchat & _).
  split; [exact Hchat|exact Hreset].
Defined.

Lemma from_defaults_builds_well_formed_witness :
  (forall a, @None nat = Some a -> is_Some (memories empty_world !! a))
  /\ from_defaults echo_tools (Some echo_context) None (Some echo_history)
       false (Some "Be brief.") None empty_world = (Ok echo_engine, echo_engine_world)
  /\ well_formed echo_engine echo_engine_world.
Proof.
  assert (Hlive : forall a, @None nat = Some a -> is_Some (memories empty_world !! a))
    by (intros a Ha; discriminate Ha).
  assert (Hrun : from_defaults echo_tools (Some echo_context) None (Some echo_history)
                   false (Some "Be brief.") None empty_world
                 = (Ok echo_engine, echo_engine_world))
    by (vm_compute; reflexivity).
  split; [exact Hlive|]. split; [exact Hrun|].
  exact (from_defaults_builds_well_formed (R:=EchoRuntime) echo_tools
           (Some echo_context) None (Some echo_history) false (Some "Be brief.")
           None empty_world echo_engine_world echo_engine Hlive Hrun).
Defined.

Lemma from_query_engine_single_tool_witness :
  from_query_engine (B:=EchoBridge) "wiki-engine" (Some "wiki") None
    (Some echo_context) None (Some echo_history) false
    (mkKwargs (Some "Be brief.") None) empty_world
  = (Ok echo_engine, echo_engine_world)
  /\ _query_engine_tools echo_engine = ["wiki"]
  /\ _system_prompt echo_engine = Some "Be brief."
  /\ exists ag, agents echo_engine_world !! _agent echo_engine = Some ag
                /\ ae_tools ag = ["tool:wiki"].
Proof.
  assert (Hrun : from_query_engine (B:=EchoBridge) "wiki-engine" (Some "wiki") None
                   (Some echo_context) None (Some echo_history) false
                   (mkKwargs (Some "Be brief.") None) empty_world
                 = (Ok echo_engine, echo_engine_world))
    by (vm_compute; reflexivity).
  split; [exact Hrun|].
  destruct (from_query_engine_single_tool (R:=EchoRuntime) "wiki-engine"
              (Some "wiki") None (Some echo_context) None (Some echo_history)
              false (mkKwargs (Some "Be brief.") None) empty_world
              echo_engine_world echo_engine Hrun)
    as (Ht & Hsp & _ & _ & ag & Hag & Hat & _).
  split; [exact Ht|]. split; [exact Hsp|].
  exists ag. split; [exact Hag|exact Hat].
Defined.

Lemma created_memory_matches_agent_witness :
  llm_predictor (default ServiceContext_from_defaults (Some text_context))
  = LLMPredictor (IsLangChainLLM echo_text_llm)
  /\ exists self w' m ag,
       from_defaults echo_tools (Some text_context) None None true None None
         empty_world = (Ok self, w')
       /\ memories w' !! _memory self = Some m
       /\ agents w' !! _agent self = Some ag
       /\ (return_messages m = false
           <-> ae_agent ag = CONVERSATIONAL_REACT_DESCRIPTION).
Proof.
  assert (Hsc : llm_predictor (default ServiceContext_from_defaults (Some text_context))
                = LLMPredictor (IsLangChainLLM echo_text_llm)) by reflexivity.
  split; [exact Hsc|].
  destruct (created_memory_matches_agent (R:=EchoRuntime) echo_tools
              (Some text_context) echo_text_llm None true None empty_world Hsc)
    as (self & w' & m & ag & Hrun & Hm & Hag & _ & _ & Htext).
  exists self, w', m, ag. repeat split; try assumption; apply Htext.
Defined.

Lemma reset_twice_witness :
  memories summary_engine_world !! _memory summary_engine = Some summary_memory
  /\ is_Some (agents summary_engine_world !! _agent summary_engine)
  /\ exists self1 self2 w1 w2,
       reset summary_engine summary_engine_world = (Ok self1, w1)
       /\ reset self1 w1 = (Ok self2, w2)
       /\ memories w2 = memories w1
       /\ _agent self2 ≠ _agent self1
       /\ _agent self2 ≠ _agent summary_engine.
Proof.
  assert (Hmem : memories summary_engine_world !! _memory summary_engine
                 = Some summary_memory) by (vm_compute; reflexivity).
  assert (Hagent : is_Some (agents summary_engine_world !! _agent summary_engine))
    by (exists summary_agent; vm_compute; reflexivity).
  split; [exact Hmem|]. split; [exact Hagent|].
  destruct (reset_twice (B:=EchoBridge) summary_engine summary_engine_world
              summary_memory Hmem Hagent)
    as (self1 & self2 & w1 & w2 & H1 & H2 & Hm & _ & _ & H21 & H20).
  exists self1, self2, w1, w2. repeat split; assumption.
Defined.

Lemma chat_twice_carries_over_witness :
  agents buffer_engine_world !! _agent buffer_engine = Some buffer_agent
  /\ memories buffer_engine_world !! ae_memory buffer_agent = Some buffer_memory
  /\ trace (snd (chat buffer_engine "and then?" None
                   (snd (chat buffer_engine "question" None buffer_engine_world))))
     = [EvRun 0 "question"; EvRun 0 "and then?"].
Proof.
  assert (Hagent : agents buffer_engine_world !! _agent buffer_engine
                   = Some buffer_agent) by (vm_compute; reflexivity).
  assert (Hmem : memories buffer_engine_world !! ae_memory buffer_agent
                 = Some buffer_memory) by (vm_compute; reflexivity).
  split; [exact Hagent|]. split; [exact Hmem|].
  destruct (chat_twice_carries_over (R:=EchoRuntime) buffer_engine "question"
              "and then?" buffer_engine_world buffer_agent buffer_memory Hagent Hmem)
    as (_ & Htrace).
  exact Htrace.
Defined.
